(** * Restaurant bookings and notifications: route handlers and the bell panel

    A shallow embedding of [server/routes/bookings.js] (the Express route
    handlers over the SQLite store) and of the state-changing functions of
    [src/components/NotificationBell.jsx], followed by the properties the
    specification states about them.

    A handler is a function from the store (and the request) to a response and
    the store it leaves behind.  A table is a finite map from its primary key
    to the remaining columns.  The statements a handler issues are taken to
    run, one after the other and without another request in between, so a
    [catch] branch that answers 500 has a counterpart here only where the
    handler's own parameter makes the store refuse a statement: the LIMIT of
    the notification list. *)

From Stdlib Require Import ZArith QArith Ascii String.
From stdpp Require Import base option gmap strings list sorting pretty.

Local Open Scope string_scope.
Local Open Scope Z_scope.

(** ** JavaScript helpers *)

Module Js.

(** [x || d] on numbers: [0] is falsy ([NaN] is handled where it can arise). *)
Definition or_num (x d : Z) : Z := if decide (x = 0) then d else x.

(** [x || null] on a nullable string: [null] and the empty string are falsy. *)
Definition or_null (x : option string) : option string :=
  match x with
  | Some "" => None
  | _ => x
  end.

(** Truthiness of a number, as in [if (row.booking_id)]. *)
Definition truthy_num (x : Z) : bool := bool_decide (x ≠ 0).

(** *** [parseInt] with no radix argument

    Leading white space is skipped, one sign is read, a [0x]/[0X] prefix
    selects base 16, and the longest run of digits is converted.  [None] is
    [NaN].  The white space is that of ASCII (a query string that holds other
    white space is outside this model).  The result is the mathematical
    integer; a JavaScript number rounds it beyond 2^53, which the clamp and
    the fallback below are not sensitive to. *)

Definition is_space (c : ascii) : bool :=
  let n := nat_of_ascii c in
  ((9 <=? n)%nat && (n <=? 13)%nat) || (n =? 32)%nat.

Definition digit_value (c : ascii) : option Z :=
  let n := Z.of_nat (nat_of_ascii c) in
  if (48 <=? n) && (n <=? 57) then Some (n - 48)
  else if (97 <=? n) && (n <=? 122) then Some (n - 87)
  else if (65 <=? n) && (n <=? 90) then Some (n - 55)
  else None.

Definition digit_in (radix : Z) (c : ascii) : option Z :=
  match digit_value c with
  | Some d => if d <? radix then Some d else None
  | None => None
  end.

Fixpoint skip_spaces (s : string) : string :=
  match s with
  | String c s' => if is_space c then skip_spaces s' else s
  | EmptyString => s
  end.

(** Reads digits while there are any; [acc] is [None] until the first one. *)
Fixpoint read_digits (radix : Z) (acc : option Z) (s : string) : option Z :=
  match s with
  | String c s' =>
      match digit_in radix c with
      | Some d => read_digits radix (Some (default 0 acc * radix + d)) s'
      | None => acc
      end
  | EmptyString => acc
  end.

Definition strip_hex (s : string) : option string :=
  match s with
  | String c0 (String c1 s') =>
      if Ascii.eqb c0 "0"%char && (Ascii.eqb c1 "x"%char || Ascii.eqb c1 "X"%char)
      then Some s' else None
  | _ => None
  end.

Definition parse_magnitude (s : string) : option Z :=
  match strip_hex s with
  | Some s' => read_digits 16 None s'
  | None => read_digits 10 None s
  end.

Definition parseInt (s : string) : option Z :=
  match skip_spaces s with
  | String c s' =>
      if Ascii.eqb c "-"%char then Z.opp <$> parse_magnitude s'
      else if Ascii.eqb c "+"%char then parse_magnitude s'
      else parse_magnitude (String c s')
  | EmptyString => None
  end.

(** [p || d] where [p] is the result of [parseInt]: [NaN] and [0] are falsy. *)
Definition or_parsed (p : option Z) (d : Z) : Z :=
  match p with
  | Some v => or_num v d
  | None => d
  end.

End Js.

(** ** The store behind [db.get], [db.all] and [db.run]

    [config/database] and the schema are not among the sources.  The tables
    are those of the persisted state layout of the specification, with the
    columns that the statements of the handlers name. *)

Module Db.

Record restaurant := {
  r_name : string;
  r_address : string;
  r_is_active : Z
}.

Record restaurant_table := {
  rt_restaurant_id : Z;
  rt_table_number : string;
  rt_capacity : Z;
  rt_status : string
}.

(** [b_updated_at] is [None] until a handler writes the column. *)
Record booking := {
  b_user_id : Z;
  b_restaurant_id : Z;
  b_table_id : Z;
  b_date : string;
  b_time : string;
  b_guests : Z;
  b_special_requests : option string;
  b_status : string;
  b_updated_at : option string
}.

Record order := {
  o_order_type : string;
  o_status : string;
  o_total_amount : Q
}.

Record notification := {
  n_user_id : Z;
  n_title : string;
  n_message : string;
  n_type : string;
  n_is_read : Z;
  n_created_at : string;
  n_restaurant_id : option Z;
  n_booking_id : option Z;
  n_order_id : option Z
}.

(** Every table is keyed by its [id] column. *)
Record t := {
  restaurants : gmap Z restaurant;
  restaurant_tables : gmap Z restaurant_table;
  bookings : gmap Z booking;
  orders : gmap Z order;
  notifications : gmap Z notification
}.

(** The largest id in use, [0] in an empty table. *)
Definition max_id {A} (m : gmap Z A) : Z :=
  map_fold (λ k _ acc, Z.max k acc) 0 m.

(** Modelled from the spec: the [run] of [config/database], the gateway's
    mutating statement, whose result carries the id of the inserted row
    ("Returns booking id") as [result.id].  SQLite takes it one above the
    largest id in use. *)
Definition lastID {A} (m : gmap Z A) : Z := max_id m + 1.

(** Row ids as SQLite hands them out start at 1. *)
Definition positive_keys {A} (m : gmap Z A) : Prop :=
  map_Forall (λ k _, 1 ≤ k) m.

Definition wf (s : t) : Prop :=
  positive_keys (restaurants s)
  ∧ positive_keys (restaurant_tables s)
  ∧ positive_keys (bookings s)
  ∧ positive_keys (orders s)
  ∧ positive_keys (notifications s).

Global Instance wf_dec s : Decision (wf s).
Proof. unfold wf, positive_keys. apply _. Defined.

(** Modelled from the spec: the [all] of [config/database], "multiple rows",
    for [SELECT ... FROM m WHERE P]; the rows come in the order of the scan. *)
Definition all {A} (P : Z * A → Prop) `{!∀ row, Decision (P row)}
    (m : gmap Z A) : list (Z * A) :=
  filter P (map_to_list m).

(** [SELECT COUNT( * ) FROM m WHERE P], the one row that [get] returns. *)
Definition count {A} (P : Z * A → Prop) `{!∀ row, Decision (P row)}
    (m : gmap Z A) : Z :=
  Z.of_nat (length (all P m)).

(** Modelled from the spec: the [all] of [config/database] fails the whole
    request when the store refuses a statement ("if any of the three fails,
    the whole request fails").  SQLite refuses a LIMIT that is no 64-bit
    integer.  The handler's number is bound as a double, and the doubles that
    SQLite reads as an integer are those strictly inside the 64-bit range:
    the doubles of the integers above [-2^63 + 512]. *)
Definition binds_limit (n : Z) : bool := bool_decide (- 2 ^ 63 + 512 < n).


(** The notifications of a user that are not read yet. *)
Definition unread (userId : Z) (s : t) : gmap Z notification :=
  filter (λ row, n_user_id row.2 = userId ∧ n_is_read row.2 = 0)
         (notifications s).

Definition set_table_status (st : string) (rt : restaurant_table) : restaurant_table :=
  {| rt_restaurant_id := rt_restaurant_id rt;
     rt_table_number := rt_table_number rt;
     rt_capacity := rt_capacity rt;
     rt_status := st |}.

Definition set_booking_cancelled (now : string) (b : booking) : booking :=
  {| b_user_id := b_user_id b;
     b_restaurant_id := b_restaurant_id b;
     b_table_id := b_table_id b;
     b_date := b_date b;
     b_time := b_time b;
     b_guests := b_guests b;
     b_special_requests := b_special_requests b;
     b_status := "cancelled";
     b_updated_at := Some now |}.

Definition set_read (n : notification) : notification :=
  {| n_user_id := n_user_id n;
     n_title := n_title n;
     n_message := n_message n;
     n_type := n_type n;
     n_is_read := 1;
     n_created_at := n_created_at n;
     n_restaurant_id := n_restaurant_id n;
     n_booking_id := n_booking_id n;
     n_order_id := n_order_id n |}.

Definition with_restaurant_tables (s : t) (m : gmap Z restaurant_table) : t :=
  {| restaurants := restaurants s;
     restaurant_tables := m;
     bookings := bookings s;
     orders := orders s;
     notifications := notifications s |}.

Definition with_bookings (s : t) (m : gmap Z booking) : t :=
  {| restaurants := restaurants s;
     restaurant_tables := restaurant_tables s;
     bookings := m;
     orders := orders s;
     notifications := notifications s |}.

Definition with_notifications (s : t) (m : gmap Z notification) : t :=
  {| restaurants := restaurants s;
     restaurant_tables := restaurant_tables s;
     bookings := bookings s;
     orders := orders s;
     notifications := m |}.

End Db.

(** ** Responses *)

Record booking_details := {
  bd_booking_id : Z;
  bd_date : option string;
  bd_time : option string;
  bd_table_number : option string
}.

Record order_details := {
  od_order_id : Z;
  od_order_type : option string;
  od_status : option string;
  od_total_amount : option Q
}.

(** One element of [data.notifications]; a sub-object that the handler does not
    attach is [None]. *)
Record enriched := {
  e_id : Z;
  e_title : string;
  e_message : string;
  e_type : string;
  e_is_read : Z;
  e_created_at : string;
  e_restaurant_name : option string;
  e_restaurant_address : option string;
  e_booking_details : option booking_details;
  e_order_details : option order_details
}.

(** What a response carries besides [success] and [message]: nothing, the
    [errors] array of a failed validation (its messages), or a [data] object. *)
Inductive body :=
  | NoData
  | ValidationErrors (errors : list string)
  | BookingCreated (bookingId : Z) (restaurantName tableNumber date time : string)
                   (guests : Z) (status : string)
  | NotificationList (notifications : list enriched) (unread_count total_count : Z)
  | UnreadCount (count : Z).

Record response := {
  status : Z;
  success : bool;
  message : string;
  data : body
}.

Definition failure (code : Z) (msg : string) : response :=
  {| status := code; success := false; message := msg; data := NoData |}.

Definition ok (code : Z) (msg : string) (d : body) : response :=
  {| status := code; success := true; message := msg; data := d |}.

(** ** The route handlers of [server/routes/bookings.js]

    Every handler runs behind [authenticateToken] and
    [authorizeRole(['customer'])]; [userId] is [req.user.id].  Route parameters
    ([:id]) reach the store as bound values compared with an integer key, and
    are integers here. *)

Module Routes.
Import Db.

(** *** POST / *)

Record booking_request := {
  restaurantId : Z;
  tableId : Z;
  date : string;
  time : string;
  guests : Z;
  specialRequests : option string
}.

Definition between (lo hi c : ascii) : bool :=
  let n := nat_of_ascii c in
  ((nat_of_ascii lo <=? n)%nat && (n <=? nat_of_ascii hi)%nat).

(** [/^([0-1]?[0-9]|2[0-3]):[0-5][0-9]$/] *)
Definition time_matches (s : string) : bool :=
  match s with
  | String h (String c (String m1 (String m2 EmptyString))) =>
      between "0" "9" h && Ascii.eqb c ":"
      && between "0" "5" m1 && between "0" "9" m2
  | String h1 (String h2 (String c (String m1 (String m2 EmptyString)))) =>
      ((between "0" "1" h1 && between "0" "9" h2)
       || (Ascii.eqb h1 "2" && between "0" "3" h2))
      && Ascii.eqb c ":"
      && between "0" "5" m1 && between "0" "9" m2
  | _ => false
  end.

Definition unless_msg (passes : bool) (msg : string) : list string :=
  if passes then [] else [msg].

Section CreateBooking.

(** [isISO8601] belongs to the validator library, not to this repository. *)
Variable isISO8601 : string → bool.

(** The messages of the [bookingValidation] chain, in its order.  The body
    fields are taken as parsed: integers for the three [isInt] fields, and a
    text whose length is counted in the characters of this model (bytes). *)
Definition bookingValidation (req : booking_request) : list string :=
  unless_msg (bool_decide (1 ≤ restaurantId req)) "Valid restaurant ID is required"
  ++ unless_msg (bool_decide (1 ≤ tableId req)) "Valid table ID is required"
  ++ unless_msg (isISO8601 (date req)) "Valid date is required"
  ++ unless_msg (time_matches (time req)) "Valid time format (HH:MM) is required"
  ++ unless_msg (bool_decide (1 ≤ guests req ≤ 20))
       "Number of guests must be between 1 and 20"
  ++ unless_msg (match specialRequests req with
                 | Some sr => bool_decide (String.length sr ≤ 500)%nat
                 | None => true
                 end)
       "Special requests must be less than 500 characters".

(** [SELECT id, name FROM restaurants WHERE id = ? AND is_active = 1] *)
Definition get_active_restaurant (s : Db.t) (rid : Z) : option restaurant :=
  match restaurants s !! rid with
  | Some r => if decide (r_is_active r = 1) then Some r else None
  | None => None
  end.

(** [SELECT ... FROM restaurant_tables WHERE id = ? AND restaurant_id = ?] *)
Definition get_table_of (s : Db.t) (tid rid : Z) : option restaurant_table :=
  match restaurant_tables s !! tid with
  | Some rt => if decide (rt_restaurant_id rt = rid) then Some rt else None
  | None => None
  end.

Definition new_booking (userId : Z) (req : booking_request) : booking :=
  {| b_user_id := userId;
     b_restaurant_id := restaurantId req;
     b_table_id := tableId req;
     b_date := date req;
     b_time := time req;
     b_guests := guests req;
     b_special_requests := Js.or_null (specialRequests req);
     b_status := "confirmed";
     b_updated_at := None |}.

Definition capacity_message (capacity requested : Z) : string :=
  ("Table capacity is " +:+ pretty capacity +:+ ", but you requested "
   +:+ pretty requested +:+ " guests")%string.

Definition createBooking (userId : Z) (req : booking_request) (s : Db.t)
  : response * Db.t :=
  match bookingValidation req with
  | (_ :: _) as errs =>
      ({| status := 400; success := false; message := "Validation failed";
          data := ValidationErrors errs |}, s)
  | [] =>
      match get_active_restaurant s (restaurantId req) with
      | None => (failure 404 "Restaurant not found", s)
      | Some restaurant =>
          match get_table_of s (tableId req) (restaurantId req) with
          | None => (failure 404 "Table not found", s)
          | Some table =>
              if decide (guests req > rt_capacity table) then
                (failure 400 (capacity_message (rt_capacity table) (guests req)), s)
              else if decide (rt_status table ≠ "available") then
                (failure 400 "Table is not available", s)
              else
                let id := lastID (bookings s) in
                let s1 := with_bookings s (<[id := new_booking userId req]> (bookings s)) in
                let s2 := with_restaurant_tables s1
                            (alter (set_table_status "reserved") (tableId req)
                                   (restaurant_tables s1)) in
                (ok 201 "Booking created successfully"
                    (BookingCreated id (r_name restaurant) (rt_table_number table)
                       (date req) (time req) (guests req) "confirmed"),
                 s2)
          end
      end
  end.

End CreateBooking.

(** *** PUT /:id/cancel

    [now] is the store's [CURRENT_TIMESTAMP]. *)

Definition get_booking_of (s : Db.t) (id userId : Z) : option booking :=
  match bookings s !! id with
  | Some b => if decide (b_user_id b = userId) then Some b else None
  | None => None
  end.

Definition cancelBooking (now : string) (userId id : Z) (s : Db.t)
  : response * Db.t :=
  match get_booking_of s id userId with
  | None => (failure 404 "Booking not found", s)
  | Some booking =>
      if decide (b_status booking = "cancelled") then
        (failure 400 "Booking is already cancelled", s)
      else
        let s1 := with_bookings s (alter (set_booking_cancelled now) id (bookings s)) in
        let s2 := with_restaurant_tables s1
                    (alter (set_table_status "available") (b_table_id booking)
                           (restaurant_tables s1)) in
        (ok 200 "Booking cancelled successfully" NoData, s2)
  end.

(** *** GET /notifications *)

Record notifications_query := {
  limit : option string;
  unread_only : option string
}.

(** [Math.min(parseInt(limit) || 50, 100)]; an absent [limit] is the number
    [50], which [parseInt] reads back from its decimal form. *)
Definition limitInt (q : notifications_query) : Z :=
  Z.min (Js.or_parsed (Js.parseInt (default "50"%string (limit q))) 50) 100.

(** A row of the LEFT JOIN query; [None] is SQL's NULL.  Each join is on a
    primary key, so it adds columns to a notification row and neither drops
    nor repeats the row. *)
Record joined := {
  j_id : Z;
  j_title : string;
  j_message : string;
  j_type : string;
  j_is_read : Z;
  j_created_at : string;
  j_restaurant_name : option string;
  j_restaurant_address : option string;
  j_booking_id : option Z;
  j_booking_date : option string;
  j_booking_time : option string;
  j_table_number : option string;
  j_order_id : option Z;
  j_order_type : option string;
  j_order_status : option string;
  j_order_total : option Q
}.

(** The row of a table that a nullable foreign key points to. *)
Definition linked {A} (m : gmap Z A) (fk : option Z) : option (Z * A) :=
  match fk with
  | Some k => pair k <$> m !! k
  | None => None
  end.

Definition join (s : Db.t) (row : Z * notification) : joined :=
  let n := row.2 in
  let r := linked (restaurants s) (n_restaurant_id n) in
  let b := linked (bookings s) (n_booking_id n) in
  let rt := linked (restaurant_tables s) (b_table_id ∘ snd <$> b) in
  let o := linked (orders s) (n_order_id n) in
  {| j_id := row.1;
     j_title := n_title n;
     j_message := n_message n;
     j_type := n_type n;
     j_is_read := n_is_read n;
     j_created_at := n_created_at n;
     j_restaurant_name := r_name ∘ snd <$> r;
     j_restaurant_address := r_address ∘ snd <$> r;
     j_booking_id := fst <$> b;
     j_booking_date := b_date ∘ snd <$> b;
     j_booking_time := b_time ∘ snd <$> b;
     j_table_number := rt_table_number ∘ snd <$> rt;
     j_order_id := fst <$> o;
     j_order_type := o_order_type ∘ snd <$> o;
     j_order_status := o_status ∘ snd <$> o;
     j_order_total := o_total_amount ∘ snd <$> o |}.

(** [WHERE n.user_id = ?], with [AND n.is_read = 0] appended when
    [unread_only === 'true']. *)
Definition selected (userId : Z) (unread_only : option string)
    (row : Z * notification) : Prop :=
  n_user_id row.2 = userId
  ∧ (unread_only = Some "true"%string → n_is_read row.2 = 0).

Global Instance selected_dec userId unread_only row :
  Decision (selected userId unread_only row).
Proof. unfold selected. apply _. Defined.

(** [ORDER BY n.created_at DESC], the column compared as text. *)
Definition newest_first (x y : Z * notification) : Prop :=
  String.leb (n_created_at y.2) (n_created_at x.2) = true.

Global Instance newest_first_dec x y : Decision (newest_first x y).
Proof. unfold newest_first. apply _. Defined.

(** What [LIMIT n] keeps of the rows: all of them for a negative [n]. *)
Definition limited {A} (n : Z) (l : list A) : list A :=
  if decide (n < 0) then l else take (Z.to_nat n) l.

(** [LIMIT ?]: [None] is the statement refused for its parameter. *)
Definition sql_limit {A} (n : Z) (l : list A) : option (list A) :=
  if binds_limit n then Some (limited n l) else None.

(** The selected rows in the order of the query, before the limit. *)
Definition ordered_rows (s : Db.t) (userId : Z) (q : notifications_query)
  : list (Z * notification) :=
  merge_sort newest_first
    (Db.all (selected userId (unread_only q)) (notifications s)).

Definition notificationQuery (s : Db.t) (userId : Z) (q : notifications_query)
  : option (list (Z * notification)) :=
  sql_limit (limitInt q) (ordered_rows s userId q).

(** [SELECT COUNT( * ) as count FROM notifications WHERE user_id = ? AND
    is_read = 0] *)
Definition unreadCountQuery (s : Db.t) (userId : Z) : Z :=
  Db.count (λ row, n_user_id row.2 = userId ∧ n_is_read row.2 = 0)
           (notifications s).

(** [SELECT COUNT( * ) as count FROM notifications WHERE user_id = ?] *)
Definition totalCountQuery (s : Db.t) (userId : Z) : Z :=
  Db.count (λ row, n_user_id row.2 = userId) (notifications s).

Definition enrich (j : joined) : enriched :=
  {| e_id := j_id j;
     e_title := j_title j;
     e_message := j_message j;
     e_type := j_type j;
     e_is_read := j_is_read j;
     e_created_at := j_created_at j;
     e_restaurant_name := Js.or_null (j_restaurant_name j);
     e_restaurant_address := Js.or_null (j_restaurant_address j);
     e_booking_details :=
       match j_booking_id j with
       | Some booking_id =>
           if Js.truthy_num booking_id then
             Some {| bd_booking_id := booking_id;
                     bd_date := j_booking_date j;
                     bd_time := j_booking_time j;
                     bd_table_number := j_table_number j |}
           else None
       | None => None
       end;
     e_order_details :=
       match j_order_id j with
       | Some order_id =>
           if Js.truthy_num order_id then
             Some {| od_order_id := order_id;
                     od_order_type := j_order_type j;
                     od_status := j_order_status j;
                     od_total_amount := j_order_total j |}
           else None
       | None => None
       end |}.

Definition getNotifications (userId : Z) (q : notifications_query) (s : Db.t)
  : response :=
  match notificationQuery s userId q with
  | Some notifications =>
      let unreadCount := Js.or_num (unreadCountQuery s userId) 0 in
      let totalCount := Js.or_num (totalCountQuery s userId) 0 in
      let enrichedNotifications := (enrich ∘ join s) <$> notifications in
      ok 200 "Notifications retrieved successfully"
         (NotificationList enrichedNotifications unreadCount totalCount)
  | None => failure 500 "Internal server error while fetching notifications"
  end.

(** *** GET /notifications/unread-count *)

Definition getUnreadCount (userId : Z) (s : Db.t) : response :=
  let result :=
    Db.count (λ row, n_user_id row.2 = userId ∧ n_is_read row.2 = 0)
             (notifications s) in
  ok 200 "Unread notification count retrieved"
     (UnreadCount (Js.or_num result 0)).

(** *** PUT /notifications/mark-all-read

    [UPDATE notifications SET is_read = 1 WHERE user_id = ? AND is_read = 0] *)

Definition mark_if_unread (userId : Z) (n : notification) : notification :=
  if decide (n_user_id n = userId ∧ n_is_read n = 0) then set_read n else n.

Definition markAllRead (userId : Z) (s : Db.t) : response * Db.t :=
  (ok 200 "All notifications marked as read" NoData,
   with_notifications s (mark_if_unread userId <$> notifications s)).

(** *** PUT /notifications/:id/read *)

Definition get_notification_of (s : Db.t) (id userId : Z) : option notification :=
  match notifications s !! id with
  | Some n => if decide (n_user_id n = userId) then Some n else None
  | None => None
  end.

Definition markRead (userId id : Z) (s : Db.t) : response * Db.t :=
  match get_notification_of s id userId with
  | None => (failure 404 "Notification not found", s)
  | Some _ =>
      (ok 200 "Notification marked as read" NoData,
       with_notifications s (alter set_read id (notifications s)))
  end.

End Routes.

(** ** The bell panel of [src/components/NotificationBell.jsx]

    The component state is the pair of [useState] cells the handlers write and
    the ref that guards a refresh.  A handler closes over the cells as they
    were at the render it was created in ([rendered]); a functional update
    [setX(prev => ...)] reads the cell as it is ([cur]).  The awaited call
    either fulfils with the parsed response body ([null] is [None]) or
    rejects. *)

Module Bell.

(** Modelled from the spec: [apiCall] and [apiCache.dedupe] are not among the
    sources; what the panel awaits ends in a response, successful or not, or
    in a "network failure", the rejected promise that [catch] receives. *)
Inductive settled :=
  | Fulfilled (response : option response)
  | Rejected.

Record panel := {
  notifications : list enriched;
  unreadCount : Z;
  isLoading : bool;
  loadingNotificationsRef : bool
}.

Definition set_shown (l : list enriched) (count : Z) (p : panel) : panel :=
  {| notifications := l;
     unreadCount := count;
     isLoading := isLoading p;
     loadingNotificationsRef := loadingNotificationsRef p |}.

Definition set_loading (b : bool) (p : panel) : panel :=
  {| notifications := notifications p;
     unreadCount := unreadCount p;
     isLoading := b;
     loadingNotificationsRef := b |}.

(** What [const { notifications, unread_count } = response.data] binds;
    [None] outside when [response.data] is missing, inside for a property
    the object does not have. *)
Definition data_fields (d : body) : option (option (list enriched) * option Z) :=
  match d with
  | NoData | ValidationErrors _ => None
  | NotificationList l unread _ => Some (Some l, Some unread)
  | BookingCreated _ _ _ _ _ _ _ | UnreadCount _ => Some (None, None)
  end.

(** A call that rejected, or fulfilled with no body or with
    [success: false]. *)
Definition unsuccessful (outcome : settled) : Prop :=
  match outcome with
  | Fulfilled (Some response) => success response = false
  | Fulfilled None => True
  | Rejected => True
  end.

Definition loadNotifications (outcome : settled) (cur : panel) : panel :=
  if loadingNotificationsRef cur then cur
  else
    let started := set_loading true cur in
    let after :=
      match outcome with
      | Fulfilled (Some response) =>
          match success response, data_fields (data response) with
          | true, Some (notificationsList, unread_count) =>
              set_shown (default [] notificationsList)
                        (Js.or_num (default 0 unread_count) 0) started
          | _, _ => set_shown [] 0 started
          end
      | Fulfilled None => set_shown [] 0 started
      | Rejected => set_shown [] 0 started
      end in
    set_loading false after.

(** [{ ...n, is_read: 1 }] *)
Definition as_read (n : enriched) : enriched :=
  {| e_id := e_id n;
     e_title := e_title n;
     e_message := e_message n;
     e_type := e_type n;
     e_is_read := 1;
     e_created_at := e_created_at n;
     e_restaurant_name := e_restaurant_name n;
     e_restaurant_address := e_restaurant_address n;
     e_booking_details := e_booking_details n;
     e_order_details := e_order_details n |}.

Definition read_one (notificationId : Z) (n : enriched) : enriched :=
  if decide (e_id n = notificationId) then as_read n else n.

Definition markAsRead (rendered : panel) (notificationId : Z)
    (outcome : settled) (cur : panel) : panel :=
  let optimistic :=
    set_shown (read_one notificationId <$> notifications cur)
              (Z.max 0 (unreadCount cur - 1)) cur in
  match outcome with
  | Fulfilled _ => optimistic
  | Rejected =>
      set_shown (notifications rendered) (unreadCount rendered) optimistic
  end.

Definition markAllAsRead (rendered : panel) (outcome : settled) (cur : panel)
  : panel :=
  let optimistic :=
    set_shown (as_read <$> notifications cur) 0 cur in
  match outcome with
  | Fulfilled _ => optimistic
  | Rejected =>
      set_shown (notifications rendered) (unreadCount rendered) optimistic
  end.

End Bell.

(** ** A sample store

    User 7 has three unread and two read notifications.  Restaurant 2 is
    inactive; booking 5 is cancelled; notification 14 points to an order that
    is gone. *)

Module Sample.
Import Db.

Definition iso_date (s : string) : bool := bool_decide (String.length s = 10%nat).

Definition note (user : Z) (title : string) (is_read : Z) (created : string)
    (r b o : option Z) : notification :=
  {| n_user_id := user; n_title := title; n_message := "m"; n_type := "info";
     n_is_read := is_read; n_created_at := created;
     n_restaurant_id := r; n_booking_id := b; n_order_id := o |}.

Definition store : Db.t :=
  {| restaurants :=
       {[ 1 := {| r_name := "Golden Spoon Bistro"; r_address := "123 Main St";
                  r_is_active := 1 |};
          2 := {| r_name := "Sakura Sushi"; r_address := "9 Elm St";
                  r_is_active := 0 |} ]};
     restaurant_tables :=
       {[ 1 := {| rt_restaurant_id := 1; rt_table_number := "A5";
                  rt_capacity := 4; rt_status := "available" |};
          2 := {| rt_restaurant_id := 2; rt_table_number := "B1";
                  rt_capacity := 2; rt_status := "available" |} ]};
     bookings :=
       {[ 5 := {| b_user_id := 7; b_restaurant_id := 1; b_table_id := 1;
                  b_date := "2025-10-10"; b_time := "19:00"; b_guests := 2;
                  b_special_requests := None; b_status := "cancelled";
                  b_updated_at := Some "2025-10-05 08:00:00" |} ]};
     orders :=
       {[ 3 := {| o_order_type := "takeout"; o_status := "ready";
                  o_total_amount := 4599 # 100 |} ]};
     notifications :=
       {[ 10 := note 7 "Booking Confirmed" 0 "2025-10-04 12:00:00" (Some 1) (Some 5) None;
          11 := note 7 "Order Ready" 0 "2025-10-04 13:00:00" (Some 1) None (Some 3);
          12 := note 7 "Welcome" 1 "2025-10-01 09:00:00" None None None;
          13 := note 7 "Reminder" 1 "2025-10-02 09:00:00" (Some 1) None None;
          14 := note 7 "Order Update" 0 "2025-10-04 14:00:00" (Some 4) None (Some 9);
          15 := note 8 "Other user" 0 "2025-10-04 15:00:00" None None None ]} |}.

Definition request (restaurant table guestCount : Z) : Routes.booking_request :=
  {| Routes.restaurantId := restaurant; Routes.tableId := table;
     Routes.date := "2025-10-10"; Routes.time := "19:00";
     Routes.guests := guestCount; Routes.specialRequests := None |}.

Definition query (lim unread : option string) : Routes.notifications_query :=
  {| Routes.limit := lim; Routes.unread_only := unread |}.

(** A limit far below the 64-bit range. *)
Definition far_below : string := "-99999999999999999999999".

(** A store in which a booking has the id 0, and a notification of user 7
    points to it. *)
Definition zero_store : Db.t :=
  {| restaurants := ∅;
     restaurant_tables := ∅;
     bookings :=
       {[ 0 := {| b_user_id := 7; b_restaurant_id := 1; b_table_id := 1;
                  b_date := "2025-10-10"; b_time := "19:00"; b_guests := 2;
                  b_special_requests := None; b_status := "confirmed";
                  b_updated_at := None |} ]};
     orders := ∅;
     notifications :=
       {[ 20 := note 7 "Booking Confirmed" 0 "2025-10-04 12:00:00" None (Some 0) None ]} |}.

(** A panel showing what user 7 gets for [limit=10]. *)
Definition shown : list enriched :=
  match data (Routes.getNotifications 7 (query (Some "10") None) store) with
  | NotificationList l _ _ => l
  | _ => []
  end.

Definition panel : Bell.panel :=
  {| Bell.notifications := shown; Bell.unreadCount := 3;
     Bell.isLoading := false; Bell.loadingNotificationsRef := false |}.

End Sample.

(** ** Statements of the specification that the handlers do not meet

    Each is written the way the specification words it, to be tested against
    the handlers on the sample store. *)

Module AsStated.
Import Db Routes.

(** "For all booking requests with guestCount > table.capacity, response is
    rejected with a capacity-violation error and no state mutation occurs." *)
Definition rejects_over_capacity (isISO8601 : string → bool) (userId : Z)
    (req : booking_request) (s : Db.t) : Prop :=
  ∀ table,
    restaurant_tables s !! tableId req = Some table →
    guests req > rt_capacity table →
    createBooking isISO8601 userId req s
    = (failure 400 (capacity_message (rt_capacity table) (guests req)), s).

(** "getNotifications(unread_only=true) returns only rows with isRead=false;
    unread_count always equals count(isRead=false) for that user regardless
    of limit applied to the list", for every limit of the query string. *)
Definition unread_only_answers (userId : Z) (lim : option string) (s : Db.t)
  : Prop :=
  ∃ l total,
    getNotifications userId {| limit := lim; unread_only := Some "true"%string |} s
    = ok 200 "Notifications retrieved successfully"
        (NotificationList l (Z.of_nat (size (unread userId s))) total)
    ∧ ∀ e, e ∈ l → e_is_read e = 0.


(** "Client panel treats any non-success response or network failure
    identically: revert optimistic state, log, and leave UI in
    last-known-good state", read for a refresh. *)
Definition refresh_keeps_shown (outcome : Bell.settled) (cur : Bell.panel) : Prop :=
  Bell.notifications (Bell.loadNotifications outcome cur) = Bell.notifications cur
  ∧ Bell.unreadCount (Bell.loadNotifications outcome cur) = Bell.unreadCount cur.

End AsStated.

(** ** The read handlers of [server/routes/bookings.js] *)

Module Reads.
Import Db.

(** A row of the booking queries of GET / and GET /:id. *)
Record booking_row := {
  br_id : Z;
  br_date : string;
  br_time : string;
  br_guests : Z;
  br_special_requests : option string;
  br_status : string;
  br_created_at : string;
  br_restaurant_name : string;
  br_restaurant_address : string;
  br_restaurant_phone : option string;
  br_table_number : string;
  br_table_capacity : Z
}.

Record reply (A : Type) := {
  status : Z;
  success : bool;
  message : string;
  data : option A
}.
Global Arguments status {A} _.
Global Arguments success {A} _.
Global Arguments message {A} _.
Global Arguments data {A} _.

Section BookingQueries.

(** The two selected columns that the store above does not hold, as
    functions of the id of their row: [b.created_at] and [r.phone]. *)
Variable created_at : Z → string.
Variable phone : Z → option string.

(** [FROM bookings b JOIN restaurants r ON b.restaurant_id = r.id
     JOIN restaurant_tables rt ON b.table_id = rt.id]: an inner join, so a
    booking whose restaurant or table row is missing gives no row. *)
Definition booking_join (s : Db.t) (row : Z * booking) : option booking_row :=
  let b := row.2 in
  match restaurants s !! b_restaurant_id b, restaurant_tables s !! b_table_id b with
  | Some r, Some rt =>
      Some {| br_id := row.1;
              br_date := b_date b;
              br_time := b_time b;
              br_guests := b_guests b;
              br_special_requests := b_special_requests b;
              br_status := b_status b;
              br_created_at := created_at row.1;
              br_restaurant_name := r_name r;
              br_restaurant_address := r_address r;
              br_restaurant_phone := phone (b_restaurant_id b);
              br_table_number := rt_table_number rt;
              br_table_capacity := rt_capacity rt |}
  | _, _ => None
  end.

(** [ORDER BY b.date DESC, b.time DESC], both compared as text. *)
Definition latest_first (x y : Z * booking) : Prop :=
  String.ltb (b_date y.2) (b_date x.2) = true
  ∨ (b_date x.2 = b_date y.2 ∧ String.leb (b_time y.2) (b_time x.2) = true).

Global Instance latest_first_dec x y : Decision (latest_first x y).
Proof. unfold latest_first. apply _. Defined.

(** GET / *)
Definition listBookings (userId : Z) (s : Db.t) : reply (list booking_row) :=
  let bookings :=
    omap (booking_join s)
         (merge_sort latest_first
            (Db.all (λ row, b_user_id row.2 = userId) (bookings s))) in
  {| status := 200; success := true;
     message := "Bookings retrieved successfully"; data := Some bookings |}.

(** GET /:id *)
Definition getBooking (userId id : Z) (s : Db.t) : reply booking_row :=
  let booking :=
    match bookings s !! id with
    | Some b => if decide (b_user_id b = userId) then booking_join s (id, b) else None
    | None => None
    end in
  match booking with
  | None =>
      {| status := 404; success := false; message := "Booking not found";
         data := None |}
  | Some row =>
      {| status := 200; success := true;
         message := "Booking details retrieved successfully"; data := Some row |}
  end.

End BookingQueries.

End Reads.

(** ** What the panel of [NotificationBell.jsx] displays *)

Module View.

(** [formatDate]: [diffMs] is [now - date], [None] when the date string does
    not parse (NaN); [localeDate] is [date.toLocaleDateString()]. *)
Definition formatDate (diffMs : option Z) (localeDate : string) : string :=
  match diffMs with
  | None => localeDate
  | Some diffMs =>
      let diffMins := diffMs `div` 60000 in
      let diffHours := diffMs `div` 3600000 in
      let diffDays := diffMs `div` 86400000 in
      if decide (diffMins < 1) then "Just now"
      else if decide (diffMins < 60) then pretty diffMins +:+ "m ago"
      else if decide (diffHours < 24) then pretty diffHours +:+ "h ago"
      else if decide (diffDays < 7) then pretty diffDays +:+ "d ago"
      else localeDate
  end.

End View.

(** ** Orders and formats used in the statements below *)

Module Order.

(** [x] is at least as recent as [y]. *)
Definition not_older (x y : enriched) : Prop :=
  String.leb (e_created_at y) (e_created_at x) = true.

(** Booking row [x] is for a later date than [y], or for the same date and
    not an earlier time. *)
Definition not_earlier (x y : Reads.booking_row) : Prop :=
  String.ltb (Reads.br_date y) (Reads.br_date x) = true
  ∨ (Reads.br_date x = Reads.br_date y
     ∧ String.leb (Reads.br_time y) (Reads.br_time x) = true).

Definition digit (d : Z) : ascii := ascii_of_nat (Z.to_nat (48 + d)).

Definition one_digit (n : Z) : string := String (digit n) EmptyString.

Definition two_digits (n : Z) : string :=
  String (digit (n `div` 10)) (String (digit (n `mod` 10)) EmptyString).

(** The text of a time of day, with or without a leading zero in the hour. *)
Definition clock (pad : bool) (h m : Z) : string :=
  ((if pad then two_digits h else one_digit h) +:+ ":" +:+ two_digits m)%string.

End Order.

(** * Properties *)

(** ** The store *)

Section StoreFacts.
Import Db.

Lemma max_id_bound {A} (m : gmap Z A) k x :
  m !! k = Some x → k ≤ max_id m.
Proof.
  unfold max_id. revert k x.
  apply (map_fold_weak_ind
           (λ r (m' : gmap Z A), ∀ k x, m' !! k = Some x → k ≤ r)).
  - intros k x Hk. by rewrite lookup_empty in Hk.
  - intros i y m' r Hi IH k x Hk.
    destruct (decide (i = k)) as [->|Hne].
    + lia.
    + rewrite lookup_insert_ne in Hk by done.
      specialize (IH k x Hk). lia.
Qed.

Lemma max_id_nonneg {A} (m : gmap Z A) : 0 ≤ max_id m.
Proof.
  unfold max_id.
  apply (map_fold_weak_ind (λ r (_ : gmap Z A), 0 ≤ r)); intros; lia.
Qed.

Lemma lastID_fresh {A} (m : gmap Z A) : m !! lastID m = None.
Proof.
  destruct (m !! lastID m) as [x|] eqn:E; [|done].
  apply max_id_bound in E. unfold lastID in E. lia.
Qed.

Lemma lastID_positive {A} (m : gmap Z A) : 1 ≤ lastID m.
Proof. unfold lastID. pose proof (max_id_nonneg m). lia. Qed.

Lemma positive_keys_alter {A} (f : A → A) k (m : gmap Z A) :
  positive_keys m → positive_keys (alter f k m).
Proof.
  unfold positive_keys, map_Forall. intros Hm j x Hj.
  destruct (decide (k = j)) as [->|Hne].
  - rewrite lookup_alter_eq in Hj.
    destruct (m !! j) as [y|] eqn:E; [|done]. by eapply Hm.
  - rewrite lookup_alter_ne in Hj by done. by eapply Hm.
Qed.

Lemma positive_keys_insert {A} k (x : A) (m : gmap Z A) :
  1 ≤ k → positive_keys m → positive_keys (<[k := x]> m).
Proof.
  unfold positive_keys, map_Forall. intros Hk Hm j y Hj.
  destruct (decide (k = j)) as [->|Hne]; [done|].
  rewrite lookup_insert_ne in Hj by done. by eapply Hm.
Qed.

Lemma positive_keys_fmap {A} (f : A → A) (m : gmap Z A) :
  positive_keys m → positive_keys (f <$> m).
Proof.
  unfold positive_keys, map_Forall. intros Hm j y Hj.
  rewrite lookup_fmap in Hj.
  destruct (m !! j) as [x|] eqn:E; [|done]. by eapply Hm.
Qed.

End StoreFacts.


(** ** Creating and cancelling bookings *)

Section BookingProperties.
Import Db Routes.

Variable isISO8601 : string → bool.

Lemma get_active_restaurant_Some s rid r :
  restaurants s !! rid = Some r → r_is_active r = 1 →
  get_active_restaurant s rid = Some r.
Proof.
  intros Hr Hact. unfold get_active_restaurant. rewrite Hr.
  by rewrite decide_True.
Qed.

Lemma get_table_of_Some s tid rid rt :
  restaurant_tables s !! tid = Some rt → rt_restaurant_id rt = rid →
  get_table_of s tid rid = Some rt.
Proof.
  intros Ht Hrid. unfold get_table_of. rewrite Ht.
  by rewrite decide_True.
Qed.

(** X3: whatever a request is refused for (validation, a missing or inactive
    restaurant, a missing or foreign table, capacity, availability), the
    store is left as it was. *)
Lemma createBooking_refused_unchanged userId req s :
  success (createBooking isISO8601 userId req s).1 = false →
  (createBooking isISO8601 userId req s).2 = s.
Proof.
  unfold createBooking.
  destruct (bookingValidation isISO8601 req); [|done].
  destruct (get_active_restaurant s (restaurantId req)); [|done].
  destruct (get_table_of s (tableId req) (restaurantId req)); [|done].
  repeat case_decide; done.
Qed.

(** C2, as amended: a request with more guests than the capacity of the
    table it names is always refused, with a 400 or a 404, and the store
    (bookings and table statuses included) is left as it was; the refusal is
    the 400 with the capacity message whenever the request passes validation,
    its restaurant exists and is active and the table belongs to that
    restaurant. *)
Theorem createBooking_over_capacity userId req s table :
  restaurant_tables s !! tableId req = Some table →
  guests req > rt_capacity table →
  success (createBooking isISO8601 userId req s).1 = false
  ∧ (status (createBooking isISO8601 userId req s).1 = 400
     ∨ status (createBooking isISO8601 userId req s).1 = 404)
  ∧ (createBooking isISO8601 userId req s).2 = s
  ∧ (bookingValidation isISO8601 req = [] →
     (∃ restaurant, restaurants s !! restaurantId req = Some restaurant
                    ∧ r_is_active restaurant = 1) →
     rt_restaurant_id table = restaurantId req →
     (createBooking isISO8601 userId req s).1
     = failure 400 (capacity_message (rt_capacity table) (guests req))).
Proof.
  intros Ht Hover. unfold createBooking, get_table_of. rewrite Ht.
  destruct (bookingValidation isISO8601 req) as [|e errs] eqn:Hvalid.
  - destruct (get_active_restaurant s (restaurantId req)) as [r|] eqn:Hr.
    + case_decide as Hof.
      * rewrite decide_True by done. split_and!; try done. by left.
      * split_and!; try done. by right.
    + split_and!; try done; [by right|].
      intros _ (r & Hr' & Hact) _.
      by rewrite (get_active_restaurant_Some _ _ _ Hr' Hact) in Hr.
  - split_and!; try done. by left.
Qed.

(** C3: a valid request for an active restaurant and an available table of
    that restaurant with enough capacity is answered 201 with the id of the
    inserted booking, the restaurant name, the table number, the date, time
    and guest count of the request and the status confirmed; the booking is
    inserted under a fresh id with status confirmed, and that table's status
    becomes reserved, every other row staying as it was. *)
Theorem createBooking_succeeds userId req s restaurant table :
  bookingValidation isISO8601 req = [] →
  restaurants s !! restaurantId req = Some restaurant →
  r_is_active restaurant = 1 →
  restaurant_tables s !! tableId req = Some table →
  rt_restaurant_id table = restaurantId req →
  guests req ≤ rt_capacity table →
  rt_status table = "available"%string →
  ∃ id s',
    createBooking isISO8601 userId req s
    = (ok 201 "Booking created successfully"
          (BookingCreated id (r_name restaurant) (rt_table_number table)
             (date req) (time req) (guests req) "confirmed"), s')
    ∧ bookings s !! id = None
    ∧ bookings s' = <[id := new_booking userId req]> (bookings s)
    ∧ b_status (new_booking userId req) = "confirmed"%string
    ∧ restaurant_tables s' !! tableId req
      = Some (set_table_status "reserved" table)
    ∧ (∀ k, k ≠ tableId req →
         restaurant_tables s' !! k = restaurant_tables s !! k)
    ∧ restaurants s' = restaurants s
    ∧ orders s' = orders s
    ∧ notifications s' = notifications s.
Proof.
  intros Hvalid Hr Hact Ht Hof Hfits Havail.
  eexists (lastID (bookings s)), _. unfold createBooking.
  rewrite Hvalid, (get_active_restaurant_Some _ _ _ Hr Hact),
    (get_table_of_Some _ _ _ _ Ht Hof).
  rewrite decide_False by lia.
  rewrite decide_False by (intros Hne; by apply Hne).
  split; [reflexivity|]. simpl.
  split; [apply lastID_fresh|].
  split; [reflexivity|].
  split; [reflexivity|].
  split; [by rewrite lookup_alter_eq, Ht|].
  split; [|done].
  intros k Hk. by rewrite lookup_alter_ne.
Qed.

Lemma get_booking_of_Some s id userId b :
  bookings s !! id = Some b → b_user_id b = userId →
  get_booking_of s id userId = Some b.
Proof.
  intros Hb Hown. unfold get_booking_of. rewrite Hb.
  by rewrite decide_True.
Qed.

(** C5: cancelling a booking that is already cancelled, by its owner, is
    answered 400 "Booking is already cancelled" and the store, the booking
    row and the table statuses with it, is left as it was. *)
Theorem cancelBooking_already_cancelled now userId id s b :
  bookings s !! id = Some b →
  b_user_id b = userId →
  b_status b = "cancelled"%string →
  cancelBooking now userId id s
  = (failure 400 "Booking is already cancelled", s).
Proof.
  intros Hb Hown Hst. unfold cancelBooking.
  rewrite (get_booking_of_Some _ _ _ _ Hb Hown).
  by rewrite decide_True.
Qed.

(** A cancellation that went through leaves the booking cancelled, so the
    next one is refused. *)
Lemma cancelBooking_then_cancelled now userId id s r s1 :
  cancelBooking now userId id s = (r, s1) →
  status r = 200 →
  ∃ b, bookings s1 !! id = Some b
       ∧ b_user_id b = userId ∧ b_status b = "cancelled"%string.
Proof.
  unfold cancelBooking, get_booking_of.
  destruct (bookings s !! id) as [b|] eqn:Hb; [|by intros [= <- <-]].
  case_decide as Hown; [|by intros [= <- <-]].
  case_decide as Hst; [by intros [= <- <-]|].
  intros [= <- <-] _. exists (set_booking_cancelled now b). simpl.
  by rewrite lookup_alter_eq, Hb.
Qed.

(** X8: after a cancellation that went through, cancelling the same booking
    again is answered 400 "Booking is already cancelled" and changes
    nothing. *)
Lemma cancelBooking_twice now now' userId id s r s1 :
  cancelBooking now userId id s = (r, s1) →
  status r = 200 →
  cancelBooking now' userId id s1
  = (failure 400 "Booking is already cancelled", s1).
Proof.
  intros Hfirst Hok.
  destruct (cancelBooking_then_cancelled _ _ _ _ _ _ Hfirst Hok)
    as (b & Hb & Hown & Hst).
  unfold cancelBooking.
  rewrite (get_booking_of_Some _ _ _ _ Hb Hown).
  by rewrite decide_True.
Qed.

End BookingProperties.

Section BookingExamples.
Import Db Routes.

Lemma createBooking_over_capacity_witness :
  success (createBooking Sample.iso_date 7 (Sample.request 1 1 5) Sample.store).1
  = false
  ∧ (status (createBooking Sample.iso_date 7 (Sample.request 1 1 5)
               Sample.store).1 = 400
     ∨ status (createBooking Sample.iso_date 7 (Sample.request 1 1 5)
                 Sample.store).1 = 404)
  ∧ (createBooking Sample.iso_date 7 (Sample.request 1 1 5) Sample.store).2
    = Sample.store
  ∧ (bookingValidation Sample.iso_date (Sample.request 1 1 5) = [] →
     (∃ restaurant, restaurants Sample.store !! 1 = Some restaurant
                    ∧ r_is_active restaurant = 1) →
     1 = 1 →
     (createBooking Sample.iso_date 7 (Sample.request 1 1 5) Sample.store).1
     = failure 400 (capacity_message 4 5)).
Proof.
  apply (createBooking_over_capacity Sample.iso_date 7 (Sample.request 1 1 5)
           Sample.store
           {| rt_restaurant_id := 1; rt_table_number := "A5";
              rt_capacity := 4; rt_status := "available" |});
    vm_compute; reflexivity.
Defined.

Example over_capacity_message :
  createBooking Sample.iso_date 7 (Sample.request 1 1 5) Sample.store
  = (failure 400 "Table capacity is 4, but you requested 5 guests", Sample.store).
Proof. vm_compute. reflexivity. Qed.

(** C2, as the specification words it, fails: with five guests for table 2
    (capacity 2) of the inactive restaurant 2 the answer is 404, and with 21
    guests for table 1 (capacity 4) it is the validation error. *)
Lemma rejects_over_capacity_fails :
  ¬ AsStated.rejects_over_capacity Sample.iso_date 7 (Sample.request 2 2 5)
      Sample.store
  ∧ ¬ AsStated.rejects_over_capacity Sample.iso_date 7 (Sample.request 1 1 21)
        Sample.store.
Proof.
  split; intros H.
  - specialize (H {| rt_restaurant_id := 2; rt_table_number := "B1";
                     rt_capacity := 2; rt_status := "available" |}).
    vm_compute in H. specialize (H eq_refl eq_refl). discriminate H.
  - specialize (H {| rt_restaurant_id := 1; rt_table_number := "A5";
                     rt_capacity := 4; rt_status := "available" |}).
    vm_compute in H. specialize (H eq_refl eq_refl). discriminate H.
Qed.

Example inactive_restaurant_is_404 :
  (createBooking Sample.iso_date 7 (Sample.request 2 2 5) Sample.store).1
  = failure 404 "Restaurant not found".
Proof. vm_compute. reflexivity. Qed.

Example too_many_guests_is_validation_error :
  (createBooking Sample.iso_date 7 (Sample.request 1 1 21) Sample.store).1
  = {| status := 400; success := false; message := "Validation failed";
       data := ValidationErrors ["Number of guests must be between 1 and 20"] |}.
Proof. vm_compute. reflexivity. Qed.

Lemma createBooking_succeeds_witness :
  ∃ id s',
    createBooking Sample.iso_date 7 (Sample.request 1 1 3) Sample.store
    = (ok 201 "Booking created successfully"
          (BookingCreated id "Golden Spoon Bistro" "A5" "2025-10-10" "19:00" 3
             "confirmed"), s')
    ∧ bookings Sample.store !! id = None
    ∧ bookings s'
      = <[id := new_booking 7 (Sample.request 1 1 3)]> (bookings Sample.store)
    ∧ b_status (new_booking 7 (Sample.request 1 1 3)) = "confirmed"%string
    ∧ restaurant_tables s' !! 1
      = Some {| rt_restaurant_id := 1; rt_table_number := "A5";
                rt_capacity := 4; rt_status := "reserved" |}
    ∧ (∀ k, k ≠ 1 →
         restaurant_tables s' !! k = restaurant_tables Sample.store !! k)
    ∧ restaurants s' = restaurants Sample.store
    ∧ orders s' = orders Sample.store
    ∧ notifications s' = notifications Sample.store.
Proof.
  apply (createBooking_succeeds Sample.iso_date 7 (Sample.request 1 1 3)
           Sample.store
           {| r_name := "Golden Spoon Bistro"; r_address := "123 Main St";
              r_is_active := 1 |}
           {| rt_restaurant_id := 1; rt_table_number := "A5";
              rt_capacity := 4; rt_status := "available" |});
    vm_compute; try reflexivity; discriminate.
Defined.

Example created_booking_id :
  data (createBooking Sample.iso_date 7 (Sample.request 1 1 3) Sample.store).1
  = BookingCreated 6 "Golden Spoon Bistro" "A5" "2025-10-10" "19:00" 3 "confirmed".
Proof. vm_compute. reflexivity. Qed.

Lemma cancelBooking_already_cancelled_witness :
  cancelBooking "2025-10-06 10:00:00" 7 5 Sample.store
  = (failure 400 "Booking is already cancelled", Sample.store).
Proof.
  apply (cancelBooking_already_cancelled "2025-10-06 10:00:00" 7 5 Sample.store
           {| b_user_id := 7; b_restaurant_id := 1; b_table_id := 1;
              b_date := "2025-10-10"; b_time := "19:00"; b_guests := 2;
              b_special_requests := None; b_status := "cancelled";
              b_updated_at := Some "2025-10-05 08:00:00" |});
    vm_compute; reflexivity.
Defined.

End BookingExamples.

(** ** Reading notifications *)

Section NotificationProperties.
Import Db Routes.

Lemma or_num_0 x : Js.or_num x 0 = x.
Proof. unfold Js.or_num. by case_decide. Qed.

Lemma filter_none {A} (P : A → Prop) `{!∀ x, Decision (P x)} (l : list A) :
  (∀ x, x ∈ l → ¬ P x) → filter P l = [].
Proof.
  induction l as [|x l IH]; intros Hl; [done|].
  rewrite filter_cons_False by (apply Hl; left).
  apply IH. intros y Hy. apply Hl. by right.
Qed.

(** Counting the rows of a scan is counting the entries of the table. *)
Lemma count_size {A} (P : Z * A → Prop) `{!∀ row, Decision (P row)}
    (m : gmap Z A) :
  Db.count P m = Z.of_nat (size (filter P m)).
Proof.
  unfold Db.count, Db.all. f_equal.
  rewrite map_filter_alt, <- length_map_to_list.
  apply Permutation_length. symmetry. apply map_to_list_to_map.
  apply (sublist_NoDup _ ((map_to_list m).*1)).
  - apply NoDup_fst_map_to_list.
  - apply fmap_sublist, sublist_filter.
Qed.

Lemma elem_of_all {A} (P : Z * A → Prop) `{!∀ row, Decision (P row)}
    (m : gmap Z A) row :
  row ∈ Db.all P m ↔ P row ∧ m !! row.1 = Some row.2.
Proof.
  unfold Db.all. rewrite list_elem_of_filter.
  destruct row as [k x]. by rewrite elem_of_map_to_list.
Qed.

Lemma limited_subseteq {A} n (l : list A) : limited n l ⊆ l.
Proof. unfold limited. case_decide; [done|]. apply subseteq_take. Qed.

Lemma limited_nil {A} n : limited n (@nil A) = [].
Proof. unfold limited. case_decide; [done|]. apply take_nil. Qed.

(** Every row the list query returns is a row of the table that its WHERE
    clause selects. *)
Lemma notificationQuery_selected s userId q row :
  row ∈ limited (limitInt q) (ordered_rows s userId q) →
  selected userId (unread_only q) row
  ∧ notifications s !! row.1 = Some row.2.
Proof.
  unfold ordered_rows. intros Hrow.
  apply limited_subseteq in Hrow.
  rewrite merge_sort_Permutation in Hrow.
  by apply elem_of_all in Hrow.
Qed.

(** The answer to a request whose limit the store accepts. *)
Lemma getNotifications_eq userId q s :
  binds_limit (limitInt q) = true →
  getNotifications userId q s
  = ok 200 "Notifications retrieved successfully"
      (NotificationList
         ((enrich ∘ join s) <$> limited (limitInt q) (ordered_rows s userId q))
         (Z.of_nat (size (unread userId s)))
         (totalCountQuery s userId)).
Proof.
  intros Hok. unfold getNotifications, notificationQuery, sql_limit.
  rewrite Hok, !or_num_0.
  unfold unreadCountQuery. by rewrite count_size.
Qed.

(** The answer to a request whose limit the store refuses. *)
Lemma getNotifications_refused userId q s :
  binds_limit (limitInt q) = false →
  getNotifications userId q s
  = failure 500 "Internal server error while fetching notifications".
Proof.
  intros Hno. unfold getNotifications, notificationQuery, sql_limit.
  by rewrite Hno.
Qed.

Lemma getNotifications_ok_inv userId q s l unread_count total_count :
  getNotifications userId q s
  = ok 200 "Notifications retrieved successfully"
      (NotificationList l unread_count total_count) →
  binds_limit (limitInt q) = true.
Proof.
  destruct (binds_limit (limitInt q)) eqn:E; [done|].
  by rewrite (getNotifications_refused _ _ _ E).
Qed.

(** C1, as amended: with [unread_only=true] and a limit that the store
    accepts, every element of the returned list comes from a notification row
    of that user with [is_read = 0] and carries [is_read = 0]; and
    [unread_count] is the number of that user's notifications with
    [is_read = 0], an expression in which the limit does not occur. *)
Theorem getNotifications_unread_only userId lim s :
  binds_limit (limitInt {| limit := lim; unread_only := Some "true"%string |})
  = true →
  ∃ l total,
    getNotifications userId {| limit := lim; unread_only := Some "true"%string |} s
    = ok 200 "Notifications retrieved successfully"
        (NotificationList l (Z.of_nat (size (unread userId s))) total)
    ∧ ∀ e, e ∈ l →
        e_is_read e = 0
        ∧ ∃ n, notifications s !! e_id e = Some n
               ∧ n_user_id n = userId ∧ n_is_read n = 0.
Proof.
  intros Hok. eexists _, _. split; [by apply getNotifications_eq|].
  intros e He. apply list_elem_of_fmap in He as ([id n] & -> & Hrow).
  apply notificationQuery_selected in Hrow as [[Huser Hunread] Hn].
  simpl in *. specialize (Hunread eq_refl).
  split; [done|]. by exists n.
Qed.

(** C9: on every store and for every user, the legacy handler answers 200
    with a count, and that count is the [unread_count] of the consolidated
    response: the consolidated handler answers with it for every query whose
    limit the store accepts, and it never answers with another one. *)
Theorem getUnreadCount_agrees userId s :
  ∃ count,
    getUnreadCount userId s
    = ok 200 "Unread notification count retrieved" (UnreadCount count)
    ∧ (∃ l total,
         getNotifications userId {| limit := None; unread_only := None |} s
         = ok 200 "Notifications retrieved successfully"
             (NotificationList l count total))
    ∧ ∀ q,
        (binds_limit (limitInt q) = true →
         ∃ l total,
           getNotifications userId q s
           = ok 200 "Notifications retrieved successfully"
               (NotificationList l count total))
        ∧ (∀ l unread_count total,
             getNotifications userId q s
             = ok 200 "Notifications retrieved successfully"
                 (NotificationList l unread_count total) →
             unread_count = count).
Proof.
  exists (Z.of_nat (size (unread userId s))). split_and!.
  - unfold getUnreadCount. by rewrite or_num_0, count_size.
  - eexists _, _. by apply getNotifications_eq.
  - intros q. split.
    + intros Hok. eexists _, _. by apply getNotifications_eq.
    + intros l c total Heq.
      pose proof (getNotifications_ok_inv _ _ _ _ _ _ Heq) as Hok.
      rewrite (getNotifications_eq _ _ _ Hok) in Heq. by injection Heq.
Qed.


Lemma linked_key {A} (m : gmap Z A) fk k x :
  linked m fk = Some (k, x) → m !! k = Some x.
Proof.
  unfold linked. destruct fk as [k'|]; [|done].
  destruct (m !! k') as [x'|] eqn:Hk; [|done].
  by intros [= <- <-].
Qed.

Lemma notificationQuery_NoDup s userId q :
  NoDup (limited (limitInt q) (ordered_rows s userId q)).*1.
Proof.
  assert (NoDup (Db.all (selected userId (unread_only q)) (notifications s)).*1)
    as Hall.
  { apply (sublist_NoDup _ ((map_to_list (notifications s)).*1)).
    - apply NoDup_fst_map_to_list.
    - apply fmap_sublist, sublist_filter. }
  unfold limited, ordered_rows.
  rewrite <- (merge_sort_Permutation newest_first) in Hall.
  case_decide; [done|].
  eapply sublist_NoDup; [exact Hall|]. apply fmap_sublist, sublist_take.
Qed.

Lemma notificationQuery_length s userId q :
  length (limited (limitInt q) (ordered_rows s userId q))
  = if decide (limitInt q < 0)
    then size (filter (selected userId (unread_only q)) (notifications s))
    else Nat.min (Z.to_nat (limitInt q))
           (size (filter (selected userId (unread_only q)) (notifications s))).
Proof.
  assert (length (Db.all (selected userId (unread_only q)) (notifications s))
          = size (filter (selected userId (unread_only q)) (notifications s)))
    as Hcount.
  { apply Nat2Z.inj. apply (count_size (selected userId (unread_only q))). }
  unfold limited, ordered_rows. case_decide.
  - by rewrite merge_sort_Permutation.
  - by rewrite length_take, merge_sort_Permutation, Hcount.
Qed.



(** A link to a row that is gone, or no link at all, only empties the
    fields of the element. *)
Lemma enrich_join_unlinked s row :
  n_restaurant_id row.2 = None → n_booking_id row.2 = None →
  n_order_id row.2 = None →
  let e := enrich (join s row) in
  e_restaurant_name e = None ∧ e_restaurant_address e = None
  ∧ e_booking_details e = None ∧ e_order_details e = None.
Proof.
  intros Hr Hb Ho. simpl. unfold linked. by rewrite Hr, Hb, Ho.
Qed.

(** *** The limit *)

(** C10: the limit handed to the list query is 50 when [limit] is absent,
    when [parseInt] gives NaN on it and when it parses to 0; it is 100 when
    the parsed value is above 100; and it is the parsed value otherwise, a
    negative one included. *)
Theorem limitInt_cases q :
  limitInt q
  = match limit q with
    | None => 50
    | Some text =>
        match Js.parseInt text with
        | None => 50
        | Some v =>
            if decide (v = 0) then 50
            else if decide (100 < v) then 100
            else v
        end
    end.
Proof.
  unfold limitInt. destruct (limit q) as [text|]; [|reflexivity]. simpl.
  destruct (Js.parseInt text) as [v|]; [|reflexivity].
  unfold Js.or_parsed, Js.or_num.
  repeat case_decide; lia.
Qed.

(** A negative limit reaches the query as it is, and the query then returns
    every selected row. *)
Lemma negative_limit_unbounded s userId q :
  limitInt q < 0 →
  limited (limitInt q) (ordered_rows s userId q)
  ≡ₚ Db.all (selected userId (unread_only q)) (notifications s).
Proof.
  intros Hneg. unfold limited, ordered_rows.
  rewrite decide_True by done. apply merge_sort_Permutation.
Qed.

End NotificationProperties.

(** ** Marking notifications read *)

Section MarkProperties.
Import Db Routes.

Lemma with_notifications_same s : with_notifications s (notifications s) = s.
Proof. by destruct s. Qed.

Lemma mark_if_unread_read userId n :
  ¬ (n_user_id (mark_if_unread userId n) = userId
     ∧ n_is_read (mark_if_unread userId n) = 0).
Proof.
  unfold mark_if_unread. case_decide as Hn; [|done].
  simpl. intros [_ ?]. done.
Qed.

Lemma markAllRead_none_unread userId s :
  unread userId (markAllRead userId s).2 = ∅.
Proof.
  unfold unread. simpl. apply map_empty_filter.
  intros id n Hn. rewrite lookup_fmap in Hn.
  destruct (notifications s !! id) as [n0|]; [|done].
  injection Hn as <-. apply mark_if_unread_read.
Qed.

Lemma all_unread_only_empty userId s :
  unread userId s = ∅ →
  Db.all (selected userId (Some "true"%string)) (notifications s) = [].
Proof.
  intros Hnone. unfold Db.all. apply filter_none.
  intros [id n] Hin [Huser Hunread].
  apply elem_of_map_to_list in Hin.
  specialize (Hunread eq_refl). simpl in *.
  assert (unread userId s !! id = Some n) as Hid.
  { unfold unread. by apply map_lookup_filter_Some. }
  by rewrite Hnone, lookup_empty in Hid.
Qed.

Lemma getNotifications_nothing_unread userId lim s :
  binds_limit (limitInt {| limit := lim; unread_only := Some "true"%string |})
  = true →
  unread userId s = ∅ →
  getNotifications userId
    {| limit := lim; unread_only := Some "true"%string |} s
  = ok 200 "Notifications retrieved successfully"
      (NotificationList [] 0 (totalCountQuery s userId)).
Proof.
  intros Hok Hnone. rewrite getNotifications_eq by done. unfold ordered_rows.
  cbn [unread_only].
  rewrite (all_unread_only_empty _ _ Hnone), Hnone, map_size_empty.
  unfold merge_sort. cbn [merge_sort_aux merge_stack].
  by rewrite limited_nil.
Qed.

(** C6: [markAllRead] answers 200; every notification of the user that was
    unread is read afterwards and every other row is as it was (so nothing
    changes when none was unread); and a [getNotifications] with
    [unread_only=true] that follows returns the empty list and
    [unread_count = 0], with no limit given as with any limit that the store
    accepts. *)
Theorem markAllRead_then_unread_only userId s :
  let s' := (markAllRead userId s).2 in
  (markAllRead userId s).1 = ok 200 "All notifications marked as read" NoData
  ∧ (∀ id n, notifications s !! id = Some n →
       notifications s' !! id
       = Some (if decide (n_user_id n = userId ∧ n_is_read n = 0)
               then set_read n else n))
  ∧ (unread userId s = ∅ → s' = s)
  ∧ (∃ total,
       getNotifications userId
         {| limit := None; unread_only := Some "true"%string |} s'
       = ok 200 "Notifications retrieved successfully"
           (NotificationList [] 0 total))
  ∧ ∀ lim,
      binds_limit (limitInt {| limit := lim; unread_only := Some "true"%string |})
      = true →
      ∃ total,
        getNotifications userId
          {| limit := lim; unread_only := Some "true"%string |} s'
        = ok 200 "Notifications retrieved successfully"
            (NotificationList [] 0 total).
Proof.
  cbv zeta. split; [done|]. split; [|split; [|split]].
  - intros id n Hn. simpl. by rewrite lookup_fmap, Hn.
  - intros Hnone. simpl.
    transitivity (with_notifications s (notifications s));
      [|apply with_notifications_same].
    f_equal.
    apply map_eq. intros id. rewrite lookup_fmap.
    destruct (notifications s !! id) as [n|] eqn:Hn; [|done].
    simpl. f_equal. unfold mark_if_unread. case_decide as Hun; [|done].
    assert (unread userId s !! id = Some n) as Hid.
    { unfold unread. by apply map_lookup_filter_Some. }
    by rewrite Hnone, lookup_empty in Hid.
  - eexists. apply getNotifications_nothing_unread; [done|].
    apply markAllRead_none_unread.
  - intros lim Hok. eexists. apply getNotifications_nothing_unread; [done|].
    apply markAllRead_none_unread.
Qed.

Lemma get_notification_of_Some s id userId n :
  notifications s !! id = Some n → n_user_id n = userId →
  get_notification_of s id userId = Some n.
Proof.
  intros Hn Hown. unfold get_notification_of. rewrite Hn.
  by rewrite decide_True.
Qed.

Lemma get_notification_of_None s id userId :
  get_notification_of s id userId = None
  ↔ ¬ ∃ n, notifications s !! id = Some n ∧ n_user_id n = userId.
Proof.
  unfold get_notification_of.
  destruct (notifications s !! id) as [n|] eqn:Hn.
  - case_decide as Hown.
    + split; [done|]. intros Hno. destruct Hno. by exists n.
    + split; [|done]. intros _ (n' & [= <-] & ?). done.
  - split; [|done]. by intros _ (n' & ? & ?).
Qed.

Lemma markRead_found userId id s n :
  notifications s !! id = Some n → n_user_id n = userId →
  markRead userId id s
  = (ok 200 "Notification marked as read" NoData,
     with_notifications s (<[id := set_read n]> (notifications s))).
Proof.
  intros Hn Hown. unfold markRead.
  rewrite (get_notification_of_Some _ _ _ _ Hn Hown). do 2 f_equal.
  apply map_eq. intros k. destruct (decide (id = k)) as [->|Hne].
  - by rewrite lookup_alter_eq, lookup_insert_eq, Hn.
  - by rewrite lookup_alter_ne, lookup_insert_ne.
Qed.

(** C7: [markRead] answers 404 exactly when no notification has the given id
    and the calling user; on a notification of the calling user the first
    call answers 200 and leaves it read, and a second call answers 200
    again, leaves it read, and changes nothing in the store. *)
Theorem markRead_idempotent userId id s :
  ((markRead userId id s).1 = failure 404 "Notification not found"
   ↔ ¬ ∃ n, notifications s !! id = Some n ∧ n_user_id n = userId)
  ∧ ∀ n, notifications s !! id = Some n → n_user_id n = userId →
      let s1 := (markRead userId id s).2 in
      let s2 := (markRead userId id s1).2 in
      (markRead userId id s).1 = ok 200 "Notification marked as read" NoData
      ∧ n_is_read <$> notifications s1 !! id = Some 1
      ∧ (markRead userId id s1).1 = ok 200 "Notification marked as read" NoData
      ∧ n_is_read <$> notifications s2 !! id = Some 1
      ∧ s2 = s1.
Proof.
  split.
  - rewrite <- get_notification_of_None. unfold markRead.
    destruct (get_notification_of s id userId); simpl; [|done].
    split; intros; discriminate.
  - intros n Hn Hown.
    rewrite (markRead_found _ _ _ _ Hn Hown). cbv zeta. cbn [fst snd].
    set (s1 := with_notifications s (<[id := set_read n]> (notifications s))).
    assert (notifications s1 !! id = Some (set_read n)) as Hn1
      by apply lookup_insert_eq.
    rewrite (markRead_found userId id s1 (set_read n) Hn1 Hown).
    cbn [fst snd].
    assert (with_notifications s1 (<[id := set_read (set_read n)]> (notifications s1))
            = s1) as ->.
    { unfold s1. simpl. by rewrite insert_insert_eq. }
    rewrite Hn1. done.
Qed.

End MarkProperties.

(** ** The store invariant *)

Section Invariant.
Import Db Routes.

Lemma createBooking_wf isISO8601 userId req s :
  wf s → wf (createBooking isISO8601 userId req s).2.
Proof.
  intros Hwf. unfold createBooking.
  destruct (bookingValidation isISO8601 req); [|done].
  destruct (get_active_restaurant s (restaurantId req)); [|done].
  destruct (get_table_of s (tableId req) (restaurantId req)); [|done].
  repeat case_decide; try done.
  destruct Hwf as (Hr & Ht & Hb & Ho & Hn). repeat split; simpl; try done.
  - by apply positive_keys_alter.
  - apply positive_keys_insert; [apply lastID_positive|done].
Qed.

Lemma cancelBooking_wf now userId id s :
  wf s → wf (cancelBooking now userId id s).2.
Proof.
  intros Hwf. unfold cancelBooking.
  destruct (get_booking_of s id userId); [|done].
  case_decide; [done|].
  destruct Hwf as (Hr & Ht & Hb & Ho & Hn). repeat split; simpl; try done.
  all: by apply positive_keys_alter.
Qed.

Lemma markAllRead_wf userId s : wf s → wf (markAllRead userId s).2.
Proof.
  intros (Hr & Ht & Hb & Ho & Hn). repeat split; simpl; try done.
  by apply positive_keys_fmap.
Qed.

Lemma markRead_wf userId id s : wf s → wf (markRead userId id s).2.
Proof.
  intros Hwf. unfold markRead.
  destruct (get_notification_of s id userId); [|done].
  destruct Hwf as (Hr & Ht & Hb & Ho & Hn). repeat split; simpl; try done.
  by apply positive_keys_alter.
Qed.

Lemma sample_store_wf : wf Sample.store.
Proof. apply (bool_decide_unpack (wf Sample.store)). by vm_compute. Qed.

End Invariant.

Section NotificationExamples.
Import Db Routes.

(** The scenario of the specification: three unread and two read
    notifications, [limit=10]. *)
Example scenario_list :
  ∃ l, getNotifications 7 (Sample.query (Some "10") None) Sample.store
       = ok 200 "Notifications retrieved successfully" (NotificationList l 3 5)
       ∧ e_id <$> l = [14; 11; 10; 13; 12].
Proof. eexists. split; vm_compute; reflexivity. Qed.

Example scenario_after_mark_all :
  ∃ l, getNotifications 7 (Sample.query (Some "10") None)
         (markAllRead 7 Sample.store).2
       = ok 200 "Notifications retrieved successfully" (NotificationList l 0 5).
Proof. eexists. vm_compute. reflexivity. Qed.

Example unread_only_limited :
  ∃ l, getNotifications 7 (Sample.query (Some "2") (Some "true")) Sample.store
       = ok 200 "Notifications retrieved successfully" (NotificationList l 3 5)
       ∧ e_id <$> l = [14; 11].
Proof. eexists. split; vm_compute; reflexivity. Qed.

Example legacy_count :
  getUnreadCount 7 Sample.store
  = ok 200 "Unread notification count retrieved" (UnreadCount 3).
Proof. vm_compute. reflexivity. Qed.

(** Notification 14 points to restaurant 4 and order 9, neither of which
    exists; notification 10 points to booking 5, which does. *)
Example dangling_links :
  let e := enrich (join Sample.store (14, Sample.note 7 "Order Update" 0
                     "2025-10-04 14:00:00" (Some 4) None (Some 9))) in
  e_restaurant_name e = None ∧ e_restaurant_address e = None
  ∧ e_booking_details e = None ∧ e_order_details e = None.
Proof. vm_compute. done. Qed.

Example booking_link :
  e_booking_details
    (enrich (join Sample.store (10, Sample.note 7 "Booking Confirmed" 0
               "2025-10-04 12:00:00" (Some 1) (Some 5) None)))
  = Some {| bd_booking_id := 5; bd_date := Some "2025-10-10"%string;
            bd_time := Some "19:00"%string;
            bd_table_number := Some "A5"%string |}.
Proof. vm_compute. reflexivity. Qed.



Example far_below_is_500 :
  getNotifications 7 (Sample.query (Some Sample.far_below) None) Sample.store
  = failure 500 "Internal server error while fetching notifications".
Proof. vm_compute. reflexivity. Qed.

Example booking_zero_has_no_details :
  ∃ e, getNotifications 7 (Sample.query None None) Sample.zero_store
       = ok 200 "Notifications retrieved successfully" (NotificationList [e] 1 1)
       ∧ e_id e = 20 ∧ e_booking_details e = None.
Proof. eexists. vm_compute. done. Qed.

Lemma getNotifications_unread_only_witness :
  ∃ l total,
    getNotifications 7
      {| limit := Some "2"%string; unread_only := Some "true"%string |}
      Sample.store
    = ok 200 "Notifications retrieved successfully"
        (NotificationList l (Z.of_nat (size (unread 7 Sample.store))) total)
    ∧ ∀ e, e ∈ l →
        e_is_read e = 0
        ∧ ∃ n, notifications Sample.store !! e_id e = Some n
               ∧ n_user_id n = 7 ∧ n_is_read n = 0.
Proof.
  apply (getNotifications_unread_only 7 (Some "2"%string) Sample.store).
  vm_compute. reflexivity.
Defined.

(** C1, as the specification words it, fails for a limit far below the
    64-bit range: the request is answered 500, with no list and no
    [unread_count]. *)
Lemma unread_only_answers_fails :
  ¬ AsStated.unread_only_answers 7 (Some Sample.far_below) Sample.store.
Proof. intros (l & t & Heq & _). vm_compute in Heq. discriminate Heq. Qed.

Example limit_absent : limitInt (Sample.query None None) = 50.
Proof. reflexivity. Qed.

Example limit_not_a_number : limitInt (Sample.query (Some "abc") None) = 50.
Proof. reflexivity. Qed.

Example limit_empty : limitInt (Sample.query (Some "") None) = 50.
Proof. reflexivity. Qed.

Example limit_zero : limitInt (Sample.query (Some "0") None) = 50.
Proof. reflexivity. Qed.

Example limit_in_range : limitInt (Sample.query (Some "10") None) = 10.
Proof. reflexivity. Qed.

Example limit_clamped : limitInt (Sample.query (Some "250") None) = 100.
Proof. reflexivity. Qed.

Example limit_prefix : limitInt (Sample.query (Some " 7 rows") None) = 7.
Proof. reflexivity. Qed.

Example limit_hex : limitInt (Sample.query (Some "0x1F") None) = 31.
Proof. reflexivity. Qed.

Example limit_negative : limitInt (Sample.query (Some "-5") None) = -5.
Proof. reflexivity. Qed.

Example negative_limit_returns_all :
  length <$> notificationQuery Sample.store 7 (Sample.query (Some "-5") None)
  = Some 5%nat.
Proof. vm_compute. reflexivity. Qed.

End NotificationExamples.

(** ** The bell panel *)

Section BellProperties.
Import Bell.

Lemma set_shown_same p : set_shown (notifications p) (unreadCount p) p = p.
Proof. by destruct p. Qed.

Lemma set_shown_twice l c l' c' p :
  set_shown l c (set_shown l' c' p) = set_shown l c p.
Proof. reflexivity. Qed.

(** A rejected call puts back the two cells as the handler captured them. *)
Lemma markAsRead_rejected rendered notificationId cur :
  markAsRead rendered notificationId Rejected cur
  = set_shown (notifications rendered) (unreadCount rendered) cur.
Proof. reflexivity. Qed.

Lemma markAllAsRead_rejected rendered cur :
  markAllAsRead rendered Rejected cur
  = set_shown (notifications rendered) (unreadCount rendered) cur.
Proof. reflexivity. Qed.

(** The handlers drop the value the call fulfils with: a fulfilled call
    keeps the optimistic update whatever the response says. *)
Lemma markAsRead_fulfilled rendered notificationId response cur :
  markAsRead rendered notificationId (Fulfilled response) cur
  = set_shown (read_one notificationId <$> notifications cur)
              (Z.max 0 (unreadCount cur - 1)) cur.
Proof. reflexivity. Qed.

Lemma loadNotifications_unsuccessful outcome cur :
  loadingNotificationsRef cur = false →
  unsuccessful outcome →
  loadNotifications outcome cur = set_loading false (set_shown [] 0 cur).
Proof.
  intros Hidle Hfail. unfold loadNotifications. rewrite Hidle.
  destruct outcome as [[response|]|]; try reflexivity.
  simpl in Hfail. by rewrite Hfail.
Qed.

(** C4, as amended: when the call of mark-one-read or mark-all-read rejects,
    the notifications and the unread count are set to the values that the
    handler captured at its render, whatever the panel holds by then, and the
    other cells are left alone; so a panel nothing else has changed since
    that render is exactly what it was before the interaction.  A refresh
    that runs and whose call rejects, or fulfils with no body or a
    non-success response, leaves the panel with the empty list and an unread
    count of 0. *)
Theorem failure_handling rendered cur notificationId outcome :
  (notifications (markAsRead rendered notificationId Rejected cur)
   = notifications rendered
   ∧ unreadCount (markAsRead rendered notificationId Rejected cur)
     = unreadCount rendered
   ∧ isLoading (markAsRead rendered notificationId Rejected cur) = isLoading cur
   ∧ loadingNotificationsRef (markAsRead rendered notificationId Rejected cur)
     = loadingNotificationsRef cur)
  ∧ (notifications (markAllAsRead rendered Rejected cur) = notifications rendered
     ∧ unreadCount (markAllAsRead rendered Rejected cur) = unreadCount rendered
     ∧ isLoading (markAllAsRead rendered Rejected cur) = isLoading cur
     ∧ loadingNotificationsRef (markAllAsRead rendered Rejected cur)
       = loadingNotificationsRef cur)
  ∧ (notifications rendered = notifications cur →
     unreadCount rendered = unreadCount cur →
     markAsRead rendered notificationId Rejected cur = cur
     ∧ markAllAsRead rendered Rejected cur = cur)
  ∧ (loadingNotificationsRef cur = false →
     unsuccessful outcome →
     notifications (loadNotifications outcome cur) = []
     ∧ unreadCount (loadNotifications outcome cur) = 0).
Proof.
  split_and!; try done.
  - intros Hl Hc.
    by rewrite markAsRead_rejected, markAllAsRead_rejected, Hl, Hc,
      set_shown_same.
  - intros Hidle Hfail.
    by rewrite (loadNotifications_unsuccessful _ _ Hidle Hfail).
Qed.

(** A rollback lands on the captured values also when the panel has moved on
    since the render: here a refresh has emptied it in between. *)
Example rollback_restores_captured :
  markAsRead Sample.panel 14 Rejected (loadNotifications Rejected Sample.panel)
  = Sample.panel.
Proof. vm_compute. reflexivity. Qed.

(** C4, as the specification words it, fails for a refresh: a rejected
    refresh of a panel that shows five notifications, three of them unread,
    does not keep them. *)
Lemma refresh_keeps_shown_fails :
  ¬ AsStated.refresh_keeps_shown Rejected Sample.panel.
Proof. intros [Hl _]. vm_compute in Hl. discriminate Hl. Qed.

Example refresh_rejected_clears :
  loadNotifications Rejected Sample.panel
  = {| notifications := []; unreadCount := 0;
       isLoading := false; loadingNotificationsRef := false |}.
Proof. reflexivity. Qed.

Example refresh_success_shows :
  unreadCount
    (loadNotifications
       (Fulfilled (Some (Routes.getNotifications 7
                           (Sample.query (Some "10") None)
                           (Routes.markAllRead 7 Sample.store).2)))
       Sample.panel)
  = 0
  ∧ length (notifications
    (loadNotifications
       (Fulfilled (Some (Routes.getNotifications 7
                           (Sample.query (Some "10") None)
                           (Routes.markAllRead 7 Sample.store).2)))
       Sample.panel)) = 5%nat.
Proof. vm_compute. done. Qed.

Example mark_one_optimistic :
  unreadCount (markAsRead Sample.panel 14 (Fulfilled None) Sample.panel) = 2
  ∧ e_is_read <$> notifications
      (markAsRead Sample.panel 14 (Fulfilled None) Sample.panel)
    = [1; 0; 0; 1; 1].
Proof. vm_compute. done. Qed.

End BellProperties.

(** * Further properties of the handlers *)

(** ** Bookings *)

Section BookingMore.
Import Db Routes.

Variable isISO8601 : string → bool.

Lemma unless_msg_nil passes msg : unless_msg passes msg = [] ↔ passes = true.
Proof. destruct passes; simpl; split; done. Qed.

(** The validation chain returns no message exactly when every field passes. *)
Lemma bookingValidation_nil req :
  bookingValidation isISO8601 req = []
  ↔ 1 ≤ restaurantId req
    ∧ 1 ≤ tableId req
    ∧ isISO8601 (date req) = true
    ∧ time_matches (time req) = true
    ∧ 1 ≤ guests req ≤ 20
    ∧ ∀ sr, specialRequests req = Some sr → (String.length sr ≤ 500)%nat.
Proof.
  unfold bookingValidation.
  rewrite !app_nil, !unless_msg_nil, !bool_decide_eq_true.
  destruct (specialRequests req) as [sr|].
  - rewrite bool_decide_eq_true. split.
    + intros (? & ? & ? & ? & ? & Hsr). split_and!; try done; try lia.
      intros sr' Heq. by injection Heq as <-.
    + intros (? & ? & ? & ? & ? & Hsr). split_and!; try done; try lia.
      by apply Hsr.
  - split.
    + intros (? & ? & ? & ? & ? & ?). split_and!; try done; lia.
    + intros (? & ? & ? & ? & ? & ?). split_and!; try done; lia.
Qed.

(** The one way to a 201: all the conditions of the handler, in one place. *)
Lemma createBooking_created_inv userId req s :
  status (createBooking isISO8601 userId req s).1 = 201 →
  ∃ restaurant table,
    bookingValidation isISO8601 req = []
    ∧ restaurants s !! restaurantId req = Some restaurant
    ∧ r_is_active restaurant = 1
    ∧ restaurant_tables s !! tableId req = Some table
    ∧ rt_restaurant_id table = restaurantId req
    ∧ guests req ≤ rt_capacity table
    ∧ rt_status table = "available"%string
    ∧ createBooking isISO8601 userId req s
      = (ok 201 "Booking created successfully"
           (BookingCreated (lastID (bookings s)) (r_name restaurant)
              (rt_table_number table) (date req) (time req) (guests req)
              "confirmed"),
         with_restaurant_tables
           (with_bookings s
              (<[lastID (bookings s) := new_booking userId req]> (bookings s)))
           (alter (set_table_status "reserved") (tableId req)
              (restaurant_tables s))).
Proof.
  unfold createBooking, get_active_restaurant, get_table_of.
  destruct (bookingValidation isISO8601 req); [|done].
  destruct (restaurants s !! restaurantId req) as [r|]; [|done].
  case_decide as Hact; [|done].
  destruct (restaurant_tables s !! tableId req) as [t|]; [|done].
  case_decide as Hof; [|done].
  case_decide as Hcap; [done|].
  case_decide as Hav; [done|].
  intros _. exists r, t. split_and!; try done; try lia.
  all: by destruct (decide (rt_status t = "available"%string)).
Qed.

(** X1: a request is answered 201 exactly when it passes validation, its
    restaurant exists and is active, its table exists and belongs to that
    restaurant, the guests fit the table and the table is available. *)
Theorem createBooking_created_iff userId req s :
  status (createBooking isISO8601 userId req s).1 = 201
  ↔ bookingValidation isISO8601 req = []
    ∧ ∃ restaurant table,
        restaurants s !! restaurantId req = Some restaurant
        ∧ r_is_active restaurant = 1
        ∧ restaurant_tables s !! tableId req = Some table
        ∧ rt_restaurant_id table = restaurantId req
        ∧ guests req ≤ rt_capacity table
        ∧ rt_status table = "available"%string.
Proof.
  split.
  - intros H. apply createBooking_created_inv in H
      as (r & t & ? & ? & ? & ? & ? & ? & ? & _).
    split; [done|]. by exists r, t.
  - intros (Hvalid & r & t & Hr & Hact & Ht & Hof & Hcap & Hav).
    unfold createBooking, get_active_restaurant, get_table_of.
    rewrite Hvalid, Hr, decide_True, Ht, decide_True by done.
    rewrite decide_False by lia.
    by rewrite decide_False by (intros Hne; by apply Hne).
Qed.

(** X2: validation comes before any lookup.  The answer is "Validation
    failed" exactly when some field of the request is out of range, and it is
    then the same 400 on every store, which is left as it was. *)
Theorem createBooking_validation_first userId req s :
  (message (createBooking isISO8601 userId req s).1 = "Validation failed"%string
   ↔ bookingValidation isISO8601 req ≠ [])
  ∧ (bookingValidation isISO8601 req ≠ [] →
     createBooking isISO8601 userId req s
     = ({| status := 400; success := false; message := "Validation failed";
           data := ValidationErrors (bookingValidation isISO8601 req) |}, s)).
Proof.
  unfold createBooking.
  destruct (bookingValidation isISO8601 req) as [|e errs]; [|done].
  split; [|done]. split; [|done].
  destruct (get_active_restaurant s (restaurantId req)); [|done].
  destruct (get_table_of s (tableId req) (restaurantId req)); [|done].
  repeat case_decide; done.
Qed.

(** X4: once a table is booked, every further valid request for that table,
    by whichever user and for whichever date and time, is refused with a 400
    (the capacity message if the guests do not fit, "Table is not available"
    otherwise) and changes nothing. *)
Theorem createBooking_same_table_refused userId req s userId' req' :
  status (createBooking isISO8601 userId req s).1 = 201 →
  bookingValidation isISO8601 req' = [] →
  restaurantId req' = restaurantId req →
  tableId req' = tableId req →
  let s1 := (createBooking isISO8601 userId req s).2 in
  status (createBooking isISO8601 userId' req' s1).1 = 400
  ∧ (createBooking isISO8601 userId' req' s1).2 = s1
  ∧ (message (createBooking isISO8601 userId' req' s1).1
     = "Table is not available"%string
     ∨ ∃ table, restaurant_tables s !! tableId req = Some table
                ∧ guests req' > rt_capacity table).
Proof.
  intros H Hvalid Hrid Htid.
  apply createBooking_created_inv in H
    as (r & t & _ & Hr & Hact & Ht & Hof & Hcap & _ & ->).
  cbv zeta. cbn [snd].
  unfold createBooking, get_active_restaurant, get_table_of.
  rewrite Hvalid, Hrid, Htid.
  cbn [restaurants restaurant_tables with_restaurant_tables with_bookings].
  rewrite Hr, decide_True by done.
  rewrite lookup_alter_eq, Ht. cbn [fmap option_fmap option_map].
  rewrite decide_True by done. cbn [set_table_status rt_capacity rt_status].
  case_decide as Hfit.
  - split_and!; [done..|]. right. by exists t.
  - rewrite decide_True by done. split_and!; [done..|]. by left.
Qed.

(** X5: booking a table and then cancelling that booking, as the same user,
    goes through, leaves the booking cancelled and puts every table status
    back to what it was before the booking. *)
Theorem createBooking_then_cancel userId req s now :
  status (createBooking isISO8601 userId req s).1 = 201 →
  let s1 := (createBooking isISO8601 userId req s).2 in
  let id := lastID (bookings s) in
  ∃ s2 restaurantName tableNumber,
    data (createBooking isISO8601 userId req s).1
    = BookingCreated id restaurantName tableNumber (date req) (time req)
        (guests req) "confirmed"
    ∧ cancelBooking now userId id s1
      = (ok 200 "Booking cancelled successfully" NoData, s2)
    ∧ restaurant_tables s2 = restaurant_tables s
    ∧ bookings s2
      = <[id := set_booking_cancelled now (new_booking userId req)]> (bookings s).
Proof.
  intros H. apply createBooking_created_inv in H
    as (r & t & _ & Hr & Hact & Ht & Hof & Hcap & Hav & ->).
  cbv zeta. cbn [fst snd]. eexists _, _, _. split; [reflexivity|].
  unfold cancelBooking, get_booking_of.
  cbn [bookings restaurant_tables with_restaurant_tables with_bookings].
  rewrite lookup_insert_eq, decide_True by done.
  cbn [new_booking b_status b_table_id].
  rewrite decide_False by done.
  split; [reflexivity|].
  cbn [bookings restaurant_tables with_restaurant_tables with_bookings].
  split.
  - apply map_eq. intros k. destruct (decide (tableId req = k)) as [<-|Hne].
    + rewrite !lookup_alter_eq, Ht. simpl. f_equal.
      destruct t; simpl in *. by subst.
    + by rewrite !lookup_alter_ne.
  - apply map_eq. intros k. destruct (decide (lastID (bookings s) = k)) as [<-|Hne].
    + by rewrite lookup_alter_eq, !lookup_insert_eq.
    + by rewrite lookup_alter_ne, !lookup_insert_ne.
Qed.

(** X6: a cancellation is answered 200 exactly when the booking exists,
    belongs to the caller and is not cancelled yet; it then marks that booking
    cancelled, stamps it, sets the booking's table to available, and leaves all
    other bookings and tables as they were. *)
Theorem cancelBooking_cancels now userId id s :
  (status (cancelBooking now userId id s).1 = 200
   ↔ ∃ b, bookings s !! id = Some b ∧ b_user_id b = userId
          ∧ b_status b ≠ "cancelled"%string)
  ∧ ∀ b, bookings s !! id = Some b → b_user_id b = userId →
      b_status b ≠ "cancelled"%string →
      let s' := (cancelBooking now userId id s).2 in
      bookings s' = <[id := set_booking_cancelled now b]> (bookings s)
      ∧ restaurant_tables s'
        = alter (set_table_status "available") (b_table_id b)
            (restaurant_tables s)
      ∧ restaurants s' = restaurants s
      ∧ orders s' = orders s
      ∧ notifications s' = notifications s.
Proof.
  unfold cancelBooking, get_booking_of. split.
  - destruct (bookings s !! id) as [b|] eqn:Hb.
    + case_decide as Hown.
      * case_decide as Hst; simpl.
        -- split; [done|]. intros (b' & [= <-] & _ & Hne). done.
        -- split; [|done]. intros _. by exists b.
      * simpl. split; [done|]. intros (b' & [= <-] & Hown' & _). done.
    + simpl. split; [done|]. by intros (b' & ? & _).
  - intros b Hb Hown Hst. rewrite Hb, decide_True, decide_False by done.
    cbv zeta. cbn [snd]. split_and!; try done.
    cbn [bookings with_restaurant_tables with_bookings].
    apply map_eq. intros k. destruct (decide (id = k)) as [<-|Hne].
    + by rewrite lookup_alter_eq, lookup_insert_eq, Hb.
    + by rewrite lookup_alter_ne, lookup_insert_ne.
Qed.

(** X7: whatever the answer, a cancellation leaves every booking other than
    the one with the given id as it was, and never touches a booking of
    another user. *)
Theorem cancelBooking_isolated now userId id s k b :
  bookings s !! k = Some b →
  k ≠ id ∨ b_user_id b ≠ userId →
  bookings (cancelBooking now userId id s).2 !! k = Some b.
Proof.
  intros Hk Hother. unfold cancelBooking, get_booking_of.
  destruct (bookings s !! id) as [b'|] eqn:Hb; [|done].
  case_decide as Hown; [|done].
  case_decide as Hst; [done|].
  cbn [snd bookings with_restaurant_tables with_bookings].
  destruct (decide (id = k)) as [->|Hne].
  - destruct Hother as [?|Hnot]; [done|].
    rewrite Hk in Hb. injection Hb as ->. done.
  - by rewrite lookup_alter_ne.
Qed.

End BookingMore.

(** ** The notification list *)

Section NotificationMore.
Import Db Routes.

Lemma ascii_compare_refl a : Ascii.compare a a = Eq.
Proof. apply N.compare_refl. Qed.

Lemma string_compare_refl a : String.compare a a = Eq.
Proof. induction a as [|x a IH]; [done|]. simpl. by rewrite ascii_compare_refl. Qed.

(** The text order of [ORDER BY] is transitive. *)
Lemma string_leb_trans a b c :
  String.leb a b = true → String.leb b c = true → String.leb a c = true.
Proof.
  unfold String.leb. revert b c.
  induction a as [|x a IH]; intros [|y b] [|z c]; simpl; try done.
  unfold Ascii.compare.
  destruct (N.compare_spec (N_of_ascii x) (N_of_ascii y)) as [Hxy|Hxy|Hxy];
    destruct (N.compare_spec (N_of_ascii y) (N_of_ascii z)) as [Hyz|Hyz|Hyz];
    try done.
  - rewrite Hxy, Hyz, N.compare_refl. apply IH.
  - intros _ _. rewrite Hxy. by apply N.compare_lt_iff in Hyz as ->.
  - intros _ _. rewrite <- Hyz. by apply N.compare_lt_iff in Hxy as ->.
  - intros _ _.
    assert (N_of_ascii x < N_of_ascii z)%N as Hxz by lia.
    by apply N.compare_lt_iff in Hxz as ->.
Qed.

Global Instance newest_first_total : Total newest_first.
Proof. intros x y. unfold newest_first. apply String.leb_total. Qed.

Global Instance newest_first_trans : Transitive newest_first.
Proof. intros x y z Hxy Hyz. unfold newest_first in *. by eapply string_leb_trans. Qed.

Lemma StronglySorted_take {A} (R : relation A) n (l : list A) :
  StronglySorted R l → StronglySorted R (take n l).
Proof.
  intros Hl. rewrite <- (take_drop n l) in Hl.
  by apply StronglySorted_app_1_l in Hl.
Qed.

Lemma notificationQuery_sorted s userId q :
  StronglySorted newest_first (limited (limitInt q) (ordered_rows s userId q)).
Proof.
  unfold limited, ordered_rows.
  case_decide; [|apply StronglySorted_take]; apply StronglySorted_merge_sort; apply _.
Qed.

(** X9: whenever the store accepts the limit, every element of the list is
    the notification row with its id, a row of the requesting user, with the
    title, message, type, read flag and creation time of that row; and no
    notification appears twice. *)
Theorem getNotifications_own_rows userId q s :
  binds_limit (limitInt q) = true →
  ∃ l unread_count total_count,
    getNotifications userId q s
    = ok 200 "Notifications retrieved successfully"
        (NotificationList l unread_count total_count)
    ∧ NoDup (e_id <$> l)
    ∧ ∀ e, e ∈ l →
        ∃ n, notifications s !! e_id e = Some n
             ∧ n_user_id n = userId
             ∧ e_title e = n_title n ∧ e_message e = n_message n
             ∧ e_type e = n_type n ∧ e_is_read e = n_is_read n
             ∧ e_created_at e = n_created_at n.
Proof.
  intros Hok. eexists _, _, _. split; [by apply getNotifications_eq|]. split.
  - rewrite <- list_fmap_compose.
    apply (notificationQuery_NoDup s userId q).
  - intros e He. apply list_elem_of_fmap in He as ([id n] & -> & Hrow).
    apply notificationQuery_selected in Hrow as [[Huser _] Hn].
    by exists n.
Qed.

(** X10: whenever the store accepts the limit, the list is ordered newest
    first: every element is at least as recent as every element after it. *)
Theorem getNotifications_newest_first userId q s :
  binds_limit (limitInt q) = true →
  ∃ l unread_count total_count,
    getNotifications userId q s
    = ok 200 "Notifications retrieved successfully"
        (NotificationList l unread_count total_count)
    ∧ StronglySorted Order.not_older l.
Proof.
  intros Hok. eexists _, _, _. split; [by apply getNotifications_eq|].
  eapply StronglySorted_fmap; [|apply notificationQuery_sorted].
  by intros [? ?] [? ?].
Qed.

(** X11: whenever the store accepts the limit, the list has as many elements
    as rows match the request (the user's rows, the unread ones only under
    [unread_only=true]), cut at the limit when the limit is not negative; it
    then never has more than 100. *)
Theorem getNotifications_length userId q s :
  binds_limit (limitInt q) = true →
  ∃ l unread_count total_count,
    getNotifications userId q s
    = ok 200 "Notifications retrieved successfully"
        (NotificationList l unread_count total_count)
    ∧ length l
      = (if decide (limitInt q < 0)
         then size (filter (selected userId (unread_only q)) (notifications s))
         else Nat.min (Z.to_nat (limitInt q))
                (size (filter (selected userId (unread_only q)) (notifications s))))
    ∧ (0 ≤ limitInt q → (length l ≤ 100)%nat).
Proof.
  intros Hok. eexists _, _, _. split; [by apply getNotifications_eq|].
  rewrite length_fmap, notificationQuery_length. split; [done|].
  intros Hpos. rewrite decide_False by lia.
  assert (limitInt q ≤ 100) by (unfold limitInt; lia). lia.
Qed.

(** X12: whenever the store accepts the limit, the two counts are those of
    the whole table, whatever the limit and the filter: [total_count] is the
    number of the user's notifications, [unread_count] is at most
    [total_count], and the list is never longer than [total_count]. *)
Theorem getNotifications_counts userId q s :
  binds_limit (limitInt q) = true →
  ∃ l unread_count,
    getNotifications userId q s
    = ok 200 "Notifications retrieved successfully"
        (NotificationList l unread_count
           (Z.of_nat (size (filter (λ row, n_user_id row.2 = userId)
                                   (notifications s)))))
    ∧ 0 ≤ unread_count
      ≤ Z.of_nat (size (filter (λ row, n_user_id row.2 = userId) (notifications s)))
    ∧ (length l
       ≤ size (filter (λ row, n_user_id row.2 = userId) (notifications s)))%nat.
Proof.
  intros Hok. eexists _, _. rewrite getNotifications_eq by done.
  unfold totalCountQuery.
  rewrite (count_size (λ row, n_user_id row.2 = userId)).
  split; [reflexivity|].
  assert (∀ P `{!∀ row, Decision (P row)},
            (∀ row, P row → n_user_id row.2 = userId) →
            (size (filter P (Db.notifications s))
             ≤ size (filter (λ row : Z * notification, n_user_id row.2 = userId)
                            (Db.notifications s)))%nat) as Hle.
  { intros P ? HP. apply map_subseteq_size, map_subseteq_spec.
    intros id n. rewrite !map_lookup_filter_Some.
    intros [? ?]. split; [done|]. by apply (HP (id, n)). }
  split.
  - split; [lia|]. apply inj_le. unfold unread. apply Hle. by intros ? [? _].
  - rewrite length_fmap, notificationQuery_length.
    pose proof (Hle (selected userId (unread_only q)) _) as Hsel.
    specialize (Hsel ltac:(by intros ? [? _])).
    case_decide; lia.
Qed.

(** X28: the request is answered 200 for every effective limit that is not
    below [-2^53] (so whenever the limit is absent, not a number, zero or
    positive); it is answered 500, with nothing read from the answer, for an
    effective limit below [-2^64], which the store does not take as a
    LIMIT. *)
Theorem getNotifications_limit_range userId q s :
  (- 2 ^ 53 ≤ limitInt q →
   status (getNotifications userId q s) = 200
   ∧ success (getNotifications userId q s) = true)
  ∧ (limitInt q < - 2 ^ 64 →
     getNotifications userId q s
     = failure 500 "Internal server error while fetching notifications").
Proof.
  split_and!.
  - intros Hge. rewrite getNotifications_eq; [done|].
    unfold binds_limit. apply bool_decide_eq_true. lia.
  - intros Hlt. apply getNotifications_refused.
    unfold binds_limit. apply bool_decide_eq_false. lia.
Qed.

End NotificationMore.

(** ** Marking, continued *)

Section MarkMore.
Import Db Routes.

Lemma with_notifications_twice s m m' :
  with_notifications (with_notifications s m) m' = with_notifications s m'.
Proof. reflexivity. Qed.

Lemma mark_if_unread_twice userId n :
  mark_if_unread userId (mark_if_unread userId n) = mark_if_unread userId n.
Proof.
  unfold mark_if_unread.
  destruct (decide (n_user_id n = userId ∧ n_is_read n = 0)) as [Hn|Hn].
  - rewrite decide_False; [done|]. simpl. by intros [_ ?].
  - by rewrite decide_False.
Qed.

(** X13: marking all read twice is marking all read once: the second call
    answers 200 again and leaves the store as the first call left it. *)
Theorem markAllRead_idempotent userId s :
  markAllRead userId (markAllRead userId s).2 = markAllRead userId s.
Proof.
  unfold markAllRead. cbn [snd notifications with_notifications].
  f_equal. rewrite with_notifications_twice. f_equal.
  rewrite <- map_fmap_compose. apply map_fmap_ext.
  intros id n _. apply mark_if_unread_twice.
Qed.

(** X14: marking all read for one user touches the notifications of no other
    user, changes only the read flag of those it touches, and leaves the
    number of notifications and the other tables as they were. *)
Theorem markAllRead_isolated userId s :
  let s' := (markAllRead userId s).2 in
  (∀ id n, notifications s !! id = Some n → n_user_id n ≠ userId →
     notifications s' !! id = Some n)
  ∧ (∀ other, other ≠ userId → unread other s' = unread other s)
  ∧ (∀ anyone, totalCountQuery s' anyone = totalCountQuery s anyone)
  ∧ restaurants s' = restaurants s
  ∧ restaurant_tables s' = restaurant_tables s
  ∧ bookings s' = bookings s
  ∧ orders s' = orders s.
Proof.
  cbv zeta. cbn [snd markAllRead]. split_and!; try done.
  - intros id n Hn Hother. cbn [notifications with_notifications].
    rewrite lookup_fmap, Hn. simpl. f_equal.
    unfold mark_if_unread. rewrite decide_False; [done|]. by intros [? _].
  - intros other Hother. unfold unread.
    cbn [notifications with_notifications].
    apply map_eq. intros id. apply option_eq. intros n.
    rewrite !map_lookup_filter_Some, lookup_fmap. simpl.
    destruct (Db.notifications s !! id) as [n0|] eqn:Hn0; simpl.
    + unfold mark_if_unread. case_decide as Hmine.
      * destruct Hmine as [Hmine _]. split.
        -- intros [[= <-] [Hu _]]. simpl in Hu. congruence.
        -- intros [[= <-] [Hu _]]. congruence.
      * done.
    + done.
  - intros anyone. unfold totalCountQuery.
    rewrite !(count_size (λ row, n_user_id row.2 = anyone)).
    cbn [notifications with_notifications].
    rewrite map_filter_fmap, map_size_fmap. do 2 f_equal.
    apply map_filter_ext. intros id n _. simpl.
    unfold mark_if_unread. by case_decide.
Qed.

Lemma unread_insert_read userId s id n :
  unread userId
    (with_notifications s (<[id := set_read n]> (notifications s)))
  = delete id (unread userId s).
Proof.
  unfold unread. cbn [notifications with_notifications].
  rewrite map_filter_insert_False by (by intros [_ ?]).
  apply map_filter_delete.
Qed.

(** X15: marking one notification read lowers the number of the owner's
    unread notifications by one when it was unread and leaves it as it was
    when it was read already; no other user's unread notifications change. *)
Theorem markRead_unread_count userId id s n :
  notifications s !! id = Some n →
  n_user_id n = userId →
  let s' := (markRead userId id s).2 in
  Z.of_nat (size (unread userId s'))
  = Z.of_nat (size (unread userId s)) - (if decide (n_is_read n = 0) then 1 else 0)
  ∧ ∀ other, other ≠ userId → unread other s' = unread other s.
Proof.
  intros Hn Hown. cbv zeta.
  rewrite (markRead_found _ _ _ _ Hn Hown). cbn [snd]. split.
  - rewrite unread_insert_read, map_size_delete.
    unfold unread at 1.
    destruct (filter _ (notifications s) !! id) as [n'|] eqn:Hf.
    + apply map_lookup_filter_Some in Hf as [Hn' [_ Hunread]].
      rewrite Hn in Hn'. injection Hn' as <-. simpl in Hunread.
      rewrite decide_True by done.
      assert (size (unread userId s) ≠ 0%nat) as Hpos.
      { intros Hz. apply map_size_empty_iff in Hz. unfold unread in Hz.
        assert (filter (λ row : Z * notification,
                  n_user_id row.2 = userId ∧ n_is_read row.2 = 0)
                  (notifications s) !! id = Some n) as Hin
          by by apply map_lookup_filter_Some.
        by rewrite Hz, lookup_empty in Hin. }
      simpl. lia.
    + rewrite decide_False; [simpl; lia|].
      intros Hunread.
      assert (filter (λ row : Z * notification,
                n_user_id row.2 = userId ∧ n_is_read row.2 = 0)
                (notifications s) !! id = Some n) as Hin
        by by apply map_lookup_filter_Some.
      by rewrite Hf in Hin.
  - intros other Hother. rewrite unread_insert_read.
    apply delete_id. unfold unread.
    apply map_lookup_filter_None. right. intros n' Hn' [Hu _].
    rewrite Hn in Hn'. injection Hn' as <-. simpl in Hu. congruence.
Qed.

(** X16: marking one notification read changes nothing but the read flag of
    the row with the given id, and nothing at all when that row is not the
    caller's. *)
Theorem markRead_isolated userId id s :
  let s' := (markRead userId id s).2 in
  (∀ k n, notifications s !! k = Some n →
     k ≠ id ∨ n_user_id n ≠ userId →
     notifications s' !! k = Some n)
  ∧ (∀ n, notifications s !! id = Some n → n_user_id n = userId →
       notifications s' !! id = Some (set_read n))
  ∧ ((¬ ∃ n, notifications s !! id = Some n ∧ n_user_id n = userId) → s' = s)
  ∧ restaurants s' = restaurants s
  ∧ restaurant_tables s' = restaurant_tables s
  ∧ bookings s' = bookings s
  ∧ orders s' = orders s.
Proof.
  cbv zeta. unfold markRead.
  destruct (get_notification_of s id userId) as [n0|] eqn:Hget.
  - unfold get_notification_of in Hget.
    destruct (notifications s !! id) as [n1|] eqn:Hn1; [|done].
    case_decide as Hown; [|done]. injection Hget as <-.
    cbn [snd notifications with_notifications]. split_and!; try done.
    + intros k n Hk [Hne|Hnot].
      * by rewrite lookup_alter_ne.
      * destruct (decide (id = k)) as [->|Hne]; [|by rewrite lookup_alter_ne].
        rewrite Hn1 in Hk. injection Hk as ->. done.
    + intros n [= <-] _. by rewrite lookup_alter_eq, Hn1.
    + intros Hno. destruct Hno. by exists n1.
  - cbn [snd]. split_and!; try done.
    intros n Hn Hown. apply get_notification_of_None in Hget.
    destruct Hget. by exists n.
Qed.

End MarkMore.

(** ** The store invariant, for every handler *)

Section InvariantMore.
Import Db Routes.

(** X17: every handler that writes keeps the row ids of all tables positive,
    the invariant under which the enrichment tells a linked row from a
    missing one. *)
Theorem handlers_preserve_wf isISO8601 userId req now id s :
  wf s →
  wf (createBooking isISO8601 userId req s).2
  ∧ wf (cancelBooking now userId id s).2
  ∧ wf (markAllRead userId s).2
  ∧ wf (markRead userId id s).2.
Proof.
  intros Hwf. split_and!.
  - by apply createBooking_wf.
  - by apply cancelBooking_wf.
  - by apply markAllRead_wf.
  - by apply markRead_wf.
Qed.

End InvariantMore.

(** ** Reading bookings back *)

Section ReadProperties.
Import Db Routes.

Variable created_at : Z → string.
Variable phone : Z → option string.

Lemma booking_join_id s row r :
  Reads.booking_join created_at phone s row = Some r → Reads.br_id r = row.1.
Proof.
  unfold Reads.booking_join.
  destruct (restaurants s !! b_restaurant_id row.2),
    (restaurant_tables s !! b_table_id row.2); try done.
  by intros [= <-].
Qed.

(** X18: a booking is returned by GET /:id exactly when it is in the list of
    GET / for the same user: both show the caller's bookings whose restaurant
    and table rows exist, and the same row for each. *)
Theorem getBooking_iff_listed userId s :
  ∃ l, Reads.data (Reads.listBookings created_at phone userId s) = Some l
       ∧ ∀ row, row ∈ l
           ↔ Reads.data (Reads.getBooking created_at phone userId
                           (Reads.br_id row) s) = Some row.
Proof.
  eexists. split; [reflexivity|]. intros row.
  rewrite list_elem_of_omap. split.
  - intros ([k b] & Hin & Hjoin).
    rewrite merge_sort_Permutation in Hin.
    apply elem_of_all in Hin as [Hown Hk]. simpl in Hown, Hk.
    pose proof (booking_join_id _ _ _ Hjoin) as Hid. simpl in Hid.
    unfold Reads.getBooking. rewrite Hid, Hk, decide_True, Hjoin by done.
    done.
  - unfold Reads.getBooking.
    destruct (bookings s !! Reads.br_id row) as [b|] eqn:Hb; [|done].
    case_decide as Hown; [|done].
    destruct (Reads.booking_join created_at phone s (Reads.br_id row, b))
      as [r|] eqn:Hjoin; [|done].
    intros [= ->]. exists (Reads.br_id row, b). split; [|done].
    rewrite merge_sort_Permutation. by apply elem_of_all.
Qed.

(** X19: GET /:id answers 200 exactly when the booking exists, belongs to the
    caller, and its restaurant and table rows exist; in every other case it
    answers 404 with no data, also to the owner of a booking whose table row
    is gone. *)
Theorem getBooking_found_iff userId id s :
  (Reads.status (Reads.getBooking created_at phone userId id s) = 200
   ↔ ∃ b r rt, bookings s !! id = Some b ∧ b_user_id b = userId
               ∧ restaurants s !! b_restaurant_id b = Some r
               ∧ restaurant_tables s !! b_table_id b = Some rt)
  ∧ (Reads.status (Reads.getBooking created_at phone userId id s) ≠ 200 →
     Reads.getBooking created_at phone userId id s
     = {| Reads.status := 404; Reads.success := false;
          Reads.message := "Booking not found"; Reads.data := None |}).
Proof.
  unfold Reads.getBooking, Reads.booking_join.
  destruct (bookings s !! id) as [b|] eqn:Hb; simpl.
  - case_decide as Hown.
    + destruct (restaurants s !! b_restaurant_id b) as [r|] eqn:Hr;
        destruct (restaurant_tables s !! b_table_id b) as [rt|] eqn:Ht; simpl.
      * split; [|done]. split; [|done]. intros _. by exists b, r, rt.
      * split; [|done]. split; [done|].
        intros (b' & r' & rt' & [= <-] & _ & _ & Ht'). congruence.
      * split; [|done]. split; [done|].
        intros (b' & r' & rt' & [= <-] & _ & Hr' & _). congruence.
      * split; [|done]. split; [done|].
        intros (b' & r' & rt' & [= <-] & _ & Hr' & _). congruence.
    + split; [|done]. split; [done|].
      intros (b' & r' & rt' & [= <-] & Hown' & _). done.
  - split; [|done]. split; [done|]. by intros (b' & r' & rt' & ? & _).
Qed.

(** X20: a booking that was just created can be read back by its user under
    the id the creation returned, and the row read back carries what the
    creation answered: restaurant name, table number, date, time, guests and
    the status confirmed. *)
Theorem createBooking_then_get isISO8601 userId req s :
  status (createBooking isISO8601 userId req s).1 = 201 →
  let s1 := (createBooking isISO8601 userId req s).2 in
  ∃ row,
    data (createBooking isISO8601 userId req s).1
    = BookingCreated (Reads.br_id row) (Reads.br_restaurant_name row)
        (Reads.br_table_number row) (Reads.br_date row) (Reads.br_time row)
        (Reads.br_guests row) (Reads.br_status row)
    ∧ Reads.getBooking created_at phone userId (Reads.br_id row) s1
      = {| Reads.status := 200; Reads.success := true;
           Reads.message := "Booking details retrieved successfully";
           Reads.data := Some row |}.
Proof.
  intros H. apply createBooking_created_inv in H
    as (r & t & _ & Hr & Hact & Ht & Hof & Hcap & Hav & ->).
  cbv zeta. cbn [fst snd]. eexists (Reads.Build_booking_row _ _ _ _ _ _ _ _ _ _ _ _).
  split; [reflexivity|].
  unfold Reads.getBooking, Reads.booking_join.
  cbn [bookings restaurants restaurant_tables with_restaurant_tables
       with_bookings Reads.br_id].
  rewrite lookup_insert_eq, decide_True by done.
  cbn [snd fst new_booking b_restaurant_id b_table_id].
  rewrite Hr, lookup_alter_eq, Ht. reflexivity.
Qed.

Lemma string_ltb_leb a b :
  String.ltb a b = true ↔ String.leb a b = true ∧ a ≠ b.
Proof.
  unfold String.ltb, String.leb.
  destruct (String.compare a b) eqn:E.
  - apply String.compare_eq_iff in E. split; [done|]. by intros [_ ?].
  - split; [|done]. intros _. split; [done|].
    intros ->. by rewrite string_compare_refl in E.
  - split; [done|]. by intros [? _].
Qed.

Lemma string_ltb_trans a b c :
  String.ltb a b = true → String.ltb b c = true → String.ltb a c = true.
Proof.
  rewrite !string_ltb_leb. intros [Hab Hne] [Hbc _]. split.
  - by eapply string_leb_trans.
  - intros ->. apply Hne. by apply String.leb_antisym.
Qed.

Global Instance latest_first_total : Total Reads.latest_first.
Proof.
  intros x y. unfold Reads.latest_first, String.ltb.
  rewrite (String.compare_antisym (b_date x.2) (b_date y.2)).
  destruct (String.compare (b_date y.2) (b_date x.2)) eqn:E; simpl.
  - apply String.compare_eq_iff in E.
    destruct (String.leb_total (b_time x.2) (b_time y.2)); [right|left];
      by right.
  - by left; left.
  - by right; left.
Qed.

Global Instance latest_first_trans : Transitive Reads.latest_first.
Proof.
  intros x y z. unfold Reads.latest_first.
  intros [Hxy|[Hxy Htxy]] [Hyz|[Hyz Htyz]].
  - left. by eapply string_ltb_trans.
  - left. by rewrite <- Hyz.
  - left. by rewrite Hxy.
  - right. split; [congruence|]. by eapply string_leb_trans.
Qed.

Lemma StronglySorted_omap {A B} (R : relation A) (R' : relation B)
    (f : A → option B) (l : list A) :
  (∀ x y x' y', R x y → f x = Some x' → f y = Some y' → R' x' y') →
  StronglySorted R l → StronglySorted R' (omap f l).
Proof.
  intros Hf. induction 1 as [|x l Hl IH Hx]; simpl; [constructor|].
  destruct (f x) as [x'|] eqn:Hfx; [|done].
  constructor; [done|]. apply Forall_forall. intros y' Hy'.
  apply list_elem_of_omap in Hy' as (y & Hy & Hfy).
  rewrite Forall_forall in Hx. eauto.
Qed.

(** X21: the list of GET / holds the caller's bookings with the latest date
    first and, within a date, the latest time first. *)
Theorem listBookings_latest_first userId s :
  ∃ l, Reads.data (Reads.listBookings created_at phone userId s) = Some l
       ∧ StronglySorted Order.not_earlier l.
Proof.
  eexists. split; [reflexivity|].
  eapply StronglySorted_omap; [|apply StronglySorted_merge_sort; apply _].
  intros [k b] [k' b'] r r' HR. unfold Reads.booking_join. simpl.
  destruct (restaurants s !! b_restaurant_id b),
    (restaurant_tables s !! b_table_id b); try done.
  destruct (restaurants s !! b_restaurant_id b'),
    (restaurant_tables s !! b_table_id b'); try done.
  by intros [= <-] [= <-].
Qed.

End ReadProperties.

(** ** The panel, continued *)

Section PanelMore.
Import Bell.

Lemma as_read_read n : e_is_read n = 1 → as_read n = n.
Proof. intros H. destruct n. simpl in H. by subst. Qed.

(** X22: the panel asks for [limit=10].  A refresh that the server answers
    puts on display exactly the list and the unread count of that answer,
    and ends with the spinner off and the guard released. *)
Theorem loadNotifications_shows_answer userId s cur :
  loadingNotificationsRef cur = false →
  let q := {| Routes.limit := Some "10"%string; Routes.unread_only := None |} in
  ∃ l unread_count total_count,
    Routes.getNotifications userId q s
    = ok 200 "Notifications retrieved successfully"
        (NotificationList l unread_count total_count)
    ∧ loadNotifications (Fulfilled (Some (Routes.getNotifications userId q s))) cur
      = {| notifications := l; unreadCount := unread_count;
           isLoading := false; loadingNotificationsRef := false |}.
Proof.
  intros Hidle q.
  assert (Db.binds_limit (Routes.limitInt q) = true) as Hok by reflexivity.
  eexists _, _, _. split; [by apply getNotifications_eq|].
  unfold loadNotifications. rewrite Hidle, (getNotifications_eq _ _ _ Hok).
  simpl. by rewrite or_num_0.
Qed.

(** A refresh asked for while another one is under way changes nothing; any
    other refresh, however its call ends, leaves the spinner off and the
    guard released. *)
Lemma loadNotifications_guard outcome cur :
  (loadingNotificationsRef cur = true → loadNotifications outcome cur = cur)
  ∧ (loadingNotificationsRef cur = false →
     isLoading (loadNotifications outcome cur) = false
     ∧ loadingNotificationsRef (loadNotifications outcome cur) = false).
Proof.
  unfold loadNotifications. split; intros ->; [done|].
  by destruct outcome as [[r|]|].
Qed.

(** X23: the optimistic update of mark-one-read keeps the list's length and
    ids, marks read every displayed notification with the given id, leaves
    the others as they were, and lowers the unread count by one without ever
    going below 0. *)
Theorem markAsRead_optimistic rendered notificationId response cur :
  let p := markAsRead rendered notificationId (Fulfilled response) cur in
  e_id <$> notifications p = e_id <$> notifications cur
  ∧ (∀ i e, notifications cur !! i = Some e →
       notifications p !! i
       = Some (if decide (e_id e = notificationId) then as_read e else e))
  ∧ unreadCount p = Z.max 0 (unreadCount cur - 1)
  ∧ 0 ≤ unreadCount p
  ∧ isLoading p = isLoading cur
  ∧ loadingNotificationsRef p = loadingNotificationsRef cur.
Proof.
  cbv zeta. cbn [markAsRead set_shown notifications unreadCount isLoading
                 loadingNotificationsRef]. split_and!; try done; try lia.
  - rewrite <- list_fmap_compose. apply list_fmap_ext.
    intros i e _. simpl. unfold read_one. by case_decide.
  - intros i e Hi. by rewrite list_lookup_fmap, Hi.
Qed.

(** X24: when no displayed notification with the given id is unread (the id
    is not on display, or that notification is read already), mark-one-read
    leaves the list as it is and still lowers the unread count. *)
Theorem markAsRead_nothing_to_mark rendered notificationId response cur :
  (∀ e, e ∈ notifications cur → e_id e = notificationId → e_is_read e = 1) →
  notifications (markAsRead rendered notificationId (Fulfilled response) cur)
  = notifications cur
  ∧ unreadCount (markAsRead rendered notificationId (Fulfilled response) cur)
    = Z.max 0 (unreadCount cur - 1).
Proof.
  intros Hread. cbn [markAsRead set_shown notifications unreadCount].
  split; [|done].
  rewrite <- (list_fmap_id (notifications cur)) at 2.
  apply list_fmap_ext. intros i e Hi. simpl. unfold read_one.
  case_decide as Hid; [|done]. apply as_read_read, Hread; [|done].
  by eapply list_elem_of_lookup_2.
Qed.

(** X25: the optimistic update of mark-all-read keeps the list's length and
    ids, leaves every displayed notification read, and sets the unread count
    to 0, the count the server reports to the panel's next request
    ([limit=10]) after its own mark-all-read. *)
Theorem markAllAsRead_optimistic rendered response cur userId s :
  let p := markAllAsRead rendered (Fulfilled response) cur in
  e_id <$> notifications p = e_id <$> notifications cur
  ∧ (∀ e, e ∈ notifications p → e_is_read e = 1)
  ∧ unreadCount p = 0
  ∧ ∃ l total,
      Routes.getNotifications userId
        {| Routes.limit := Some "10"%string; Routes.unread_only := None |}
        (Routes.markAllRead userId s).2
      = ok 200 "Notifications retrieved successfully"
          (NotificationList l (unreadCount p) total).
Proof.
  cbv zeta. cbn [markAllAsRead set_shown notifications unreadCount].
  split_and!; try done.
  - rewrite <- list_fmap_compose. by apply list_fmap_ext.
  - intros e He. by apply list_elem_of_fmap in He as (e0 & -> & _).
  - eexists _, _. rewrite getNotifications_eq by reflexivity.
    by rewrite markAllRead_none_unread, map_size_empty.
Qed.

(** X26: the age shown for a notification: "Just now" below one minute (and
    for a date in the future), whole minutes from 1 to 59 below one hour,
    whole hours from 1 to 23 below one day, whole days from 1 to 6 below one
    week, and the locale date from one week on and for a date that does not
    parse. *)
Theorem formatDate_ranges diffMs localeDate :
  (diffMs < 60000 → View.formatDate (Some diffMs) localeDate = "Just now"%string)
  ∧ (60000 ≤ diffMs < 3600000 →
     ∃ n, 1 ≤ n ≤ 59 ∧ 60000 * n ≤ diffMs < 60000 * (n + 1)
          ∧ View.formatDate (Some diffMs) localeDate
            = (pretty n +:+ "m ago")%string)
  ∧ (3600000 ≤ diffMs < 86400000 →
     ∃ n, 1 ≤ n ≤ 23 ∧ 3600000 * n ≤ diffMs < 3600000 * (n + 1)
          ∧ View.formatDate (Some diffMs) localeDate
            = (pretty n +:+ "h ago")%string)
  ∧ (86400000 ≤ diffMs < 604800000 →
     ∃ n, 1 ≤ n ≤ 6 ∧ 86400000 * n ≤ diffMs < 86400000 * (n + 1)
          ∧ View.formatDate (Some diffMs) localeDate
            = (pretty n +:+ "d ago")%string)
  ∧ (604800000 ≤ diffMs → View.formatDate (Some diffMs) localeDate = localeDate)
  ∧ View.formatDate None localeDate = localeDate.
Proof.
  unfold View.formatDate.
  pose proof (Z.div_mod diffMs 60000 ltac:(lia)) as Hm.
  pose proof (Z.mod_pos_bound diffMs 60000 ltac:(lia)) as Hm'.
  pose proof (Z.div_mod diffMs 3600000 ltac:(lia)) as Hh.
  pose proof (Z.mod_pos_bound diffMs 3600000 ltac:(lia)) as Hh'.
  pose proof (Z.div_mod diffMs 86400000 ltac:(lia)) as Hd.
  pose proof (Z.mod_pos_bound diffMs 86400000 ltac:(lia)) as Hd'.
  split_and!; try done.
  - intros ?. rewrite decide_True by lia. done.
  - intros ?. exists (diffMs `div` 60000).
    rewrite decide_False, decide_True by lia. split_and!; try done; lia.
  - intros ?. exists (diffMs `div` 3600000).
    rewrite decide_False, decide_False, decide_True by lia.
    split_and!; try done; lia.
  - intros ?. exists (diffMs `div` 86400000).
    rewrite decide_False, decide_False, decide_False, decide_True by lia.
    split_and!; try done; lia.
  - intros ?. by rewrite !decide_False by lia.
Qed.

End PanelMore.

(** ** The time pattern *)

Section TimePattern.
Import Routes.

Lemma between_digit lo hi c :
  0 ≤ lo ≤ 9 → 0 ≤ hi ≤ 9 →
  between (Order.digit lo) (Order.digit hi) c = true →
  ∃ d, lo ≤ d ≤ hi ∧ c = Order.digit d.
Proof.
  intros Hlo Hhi. unfold between, Order.digit.
  rewrite !nat_ascii_embedding by lia.
  rewrite andb_true_iff, !Nat.leb_le. intros [H1 H2].
  exists (Z.of_nat (nat_of_ascii c) - 48). split; [lia|].
  replace (Z.to_nat (48 + (Z.of_nat (nat_of_ascii c) - 48)))
    with (nat_of_ascii c) by lia.
  by rewrite ascii_nat_embedding.
Qed.

Lemma two_digits_spec a b :
  0 ≤ a → 0 ≤ b ≤ 9 →
  Order.two_digits (10 * a + b)
  = String (Order.digit a) (String (Order.digit b) EmptyString).
Proof.
  intros Ha Hb. unfold Order.two_digits.
  replace ((10 * a + b) `div` 10) with a
    by (apply (Z.div_unique _ 10 a b); lia).
  replace ((10 * a + b) `mod` 10) with b
    by (apply (Z.mod_unique _ 10 a b); lia).
  done.
Qed.

Lemma clock_accepted :
  Forall (λ h, Forall (λ m,
            time_matches (Order.clock true h m) = true
            ∧ (h < 10 → time_matches (Order.clock false h m) = true))
          (seqZ 0 60))
         (seqZ 0 24).
Proof.
  apply (bool_decide_unpack
           (Forall (λ h, Forall (λ m,
              time_matches (Order.clock true h m) = true
              ∧ (h < 10 → time_matches (Order.clock false h m) = true))
            (seqZ 0 60)) (seqZ 0 24))).
  by vm_compute.
Qed.

(** X27: the time pattern accepts exactly the times of day written as an
    hour from 0 to 23, in two digits or, below 10, in one, a colon, and the
    minutes from 00 to 59 in two digits. *)
Theorem time_matches_clock s :
  time_matches s = true
  ↔ ∃ pad h m, 0 ≤ h < 24 ∧ 0 ≤ m < 60 ∧ (pad = false → h < 10)
               ∧ s = Order.clock pad h m.
Proof.
  split.
  - destruct s as [|c1 [|c2 [|c3 [|c4 [|c5 [|c6 s]]]]]]; try done.
    + simpl. rewrite !andb_true_iff.
      intros [[[Hh Hc] Hm1] Hm2].
      apply (between_digit 0 9) in Hh as (h & ? & ->); [|lia..].
      apply (between_digit 0 5) in Hm1 as (m1 & ? & ->); [|lia..].
      apply (between_digit 0 9) in Hm2 as (m2 & ? & ->); [|lia..].
      apply Ascii.eqb_eq in Hc as ->.
      exists false, h, (10 * m1 + m2). split_and!; try lia.
      unfold Order.clock, Order.one_digit. by rewrite two_digits_spec by lia.
    + simpl. rewrite !andb_true_iff, orb_true_iff, !andb_true_iff.
      intros [[[Hh Hc] Hm1] Hm2].
      apply (between_digit 0 5) in Hm1 as (m1 & ? & ->); [|lia..].
      apply (between_digit 0 9) in Hm2 as (m2 & ? & ->); [|lia..].
      apply Ascii.eqb_eq in Hc as ->.
      destruct Hh as [[Hh1 Hh2]|[Hh1 Hh2]].
      * apply (between_digit 0 1) in Hh1 as (h1 & ? & ->); [|lia..].
        apply (between_digit 0 9) in Hh2 as (h2 & ? & ->); [|lia..].
        exists true, (10 * h1 + h2), (10 * m1 + m2). split_and!; try lia; try done.
        unfold Order.clock. by rewrite !two_digits_spec by lia.
      * apply Ascii.eqb_eq in Hh1 as ->.
        apply (between_digit 0 3) in Hh2 as (h2 & ? & ->); [|lia..].
        exists true, (10 * 2 + h2), (10 * m1 + m2). split_and!; try lia; try done.
        unfold Order.clock. by rewrite !two_digits_spec by lia.
  - intros (pad & h & m & Hh & Hm & Hpad & ->).
    pose proof clock_accepted as Hall.
    rewrite Forall_forall in Hall.
    specialize (Hall h ltac:(apply elem_of_seqZ; lia)).
    rewrite Forall_forall in Hall.
    destruct (Hall m ltac:(apply elem_of_seqZ; lia)) as [Htwo Hone].
    destruct pad; [done|]. by apply Hone, Hpad.
Qed.

End TimePattern.

(** ** The further properties on the sample store *)

Section MoreExamples.
Import Db Routes.

Lemma createBooking_refused_unchanged_witness :
  (createBooking Sample.iso_date 7 (Sample.request 2 2 5) Sample.store).2
  = Sample.store.
Proof.
  apply (createBooking_refused_unchanged Sample.iso_date 7
           (Sample.request 2 2 5) Sample.store).
  vm_compute. reflexivity.
Defined.

Lemma createBooking_same_table_refused_witness :
  status (createBooking Sample.iso_date 8 (Sample.request 1 1 2)
            (createBooking Sample.iso_date 7 (Sample.request 1 1 3)
               Sample.store).2).1 = 400
  ∧ (createBooking Sample.iso_date 8 (Sample.request 1 1 2)
       (createBooking Sample.iso_date 7 (Sample.request 1 1 3)
          Sample.store).2).2
    = (createBooking Sample.iso_date 7 (Sample.request 1 1 3) Sample.store).2
  ∧ (message (createBooking Sample.iso_date 8 (Sample.request 1 1 2)
                (createBooking Sample.iso_date 7 (Sample.request 1 1 3)
                   Sample.store).2).1
     = "Table is not available"%string
     ∨ ∃ table, restaurant_tables Sample.store !! 1 = Some table
                ∧ 2 > rt_capacity table).
Proof.
  apply (createBooking_same_table_refused Sample.iso_date 7
           (Sample.request 1 1 3) Sample.store 8 (Sample.request 1 1 2));
    vm_compute; reflexivity.
Defined.

Lemma createBooking_then_cancel_witness :
  ∃ s2 restaurantName tableNumber,
    data (createBooking Sample.iso_date 7 (Sample.request 1 1 3) Sample.store).1
    = BookingCreated (lastID (bookings Sample.store)) restaurantName
        tableNumber "2025-10-10" "19:00" 3 "confirmed"
    ∧ cancelBooking "2025-10-06 10:00:00" 7 (lastID (bookings Sample.store))
        (createBooking Sample.iso_date 7 (Sample.request 1 1 3) Sample.store).2
      = (ok 200 "Booking cancelled successfully" NoData, s2)
    ∧ restaurant_tables s2 = restaurant_tables Sample.store
    ∧ bookings s2
      = <[lastID (bookings Sample.store) :=
            set_booking_cancelled "2025-10-06 10:00:00"
              (new_booking 7 (Sample.request 1 1 3))]> (bookings Sample.store).
Proof.
  apply (createBooking_then_cancel Sample.iso_date 7 (Sample.request 1 1 3)
           Sample.store "2025-10-06 10:00:00").
  vm_compute. reflexivity.
Defined.

Lemma cancelBooking_isolated_witness :
  bookings (cancelBooking "2025-10-06 10:00:00" 8 5 Sample.store).2 !! 5
  = Some {| b_user_id := 7; b_restaurant_id := 1; b_table_id := 1;
            b_date := "2025-10-10"; b_time := "19:00"; b_guests := 2;
            b_special_requests := None; b_status := "cancelled";
            b_updated_at := Some "2025-10-05 08:00:00" |}.
Proof.
  apply (cancelBooking_isolated "2025-10-06 10:00:00" 8 5 Sample.store 5).
  - vm_compute. reflexivity.
  - right. vm_compute. discriminate.
Defined.

Lemma cancelBooking_twice_witness :
  cancelBooking "2025-10-07 10:00:00" 7 6
    (cancelBooking "2025-10-06 10:00:00" 7 6
       (createBooking Sample.iso_date 7 (Sample.request 1 1 3) Sample.store).2).2
  = (failure 400 "Booking is already cancelled",
     (cancelBooking "2025-10-06 10:00:00" 7 6
        (createBooking Sample.iso_date 7 (Sample.request 1 1 3) Sample.store).2).2).
Proof.
  apply (cancelBooking_twice "2025-10-06 10:00:00" "2025-10-07 10:00:00" 7 6
           (createBooking Sample.iso_date 7 (Sample.request 1 1 3) Sample.store).2
           (ok 200 "Booking cancelled successfully" NoData)).
  - vm_compute. reflexivity.
  - reflexivity.
Defined.

Lemma markRead_unread_count_witness :
  Z.of_nat (size (unread 7 (markRead 7 10 Sample.store).2))
  = Z.of_nat (size (unread 7 Sample.store)) - 1
  ∧ ∀ other, other ≠ 7 →
      unread other (markRead 7 10 Sample.store).2 = unread other Sample.store.
Proof.
  apply (markRead_unread_count 7 10 Sample.store
           (Sample.note 7 "Booking Confirmed" 0 "2025-10-04 12:00:00"
              (Some 1) (Some 5) None));
    vm_compute; reflexivity.
Defined.

Lemma getNotifications_own_rows_witness :
  ∃ l unread_count total_count,
    getNotifications 7 (Sample.query (Some "-5") None) Sample.store
    = ok 200 "Notifications retrieved successfully"
        (NotificationList l unread_count total_count)
    ∧ NoDup (e_id <$> l)
    ∧ ∀ e, e ∈ l →
        ∃ n, notifications Sample.store !! e_id e = Some n
             ∧ n_user_id n = 7
             ∧ e_title e = n_title n ∧ e_message e = n_message n
             ∧ e_type e = n_type n ∧ e_is_read e = n_is_read n
             ∧ e_created_at e = n_created_at n.
Proof.
  apply (getNotifications_own_rows 7 (Sample.query (Some "-5") None)
           Sample.store).
  vm_compute. reflexivity.
Defined.

Lemma getNotifications_newest_first_witness :
  ∃ l unread_count total_count,
    getNotifications 7 (Sample.query (Some "3") None) Sample.store
    = ok 200 "Notifications retrieved successfully"
        (NotificationList l unread_count total_count)
    ∧ StronglySorted Order.not_older l.
Proof.
  apply (getNotifications_newest_first 7 (Sample.query (Some "3") None)
           Sample.store).
  vm_compute. reflexivity.
Defined.

Lemma getNotifications_length_witness :
  ∃ l unread_count total_count,
    getNotifications 7 (Sample.query (Some "3") (Some "true")) Sample.store
    = ok 200 "Notifications retrieved successfully"
        (NotificationList l unread_count total_count)
    ∧ length l
      = (if decide (limitInt (Sample.query (Some "3") (Some "true")) < 0)
         then size (filter (selected 7 (unread_only
                              (Sample.query (Some "3") (Some "true"))))
                           (notifications Sample.store))
         else Nat.min (Z.to_nat (limitInt (Sample.query (Some "3") (Some "true"))))
                (size (filter (selected 7 (unread_only
                                 (Sample.query (Some "3") (Some "true"))))
                              (notifications Sample.store))))
    ∧ (0 ≤ limitInt (Sample.query (Some "3") (Some "true")) →
       (length l ≤ 100)%nat).
Proof.
  apply (getNotifications_length 7 (Sample.query (Some "3") (Some "true"))
           Sample.store).
  vm_compute. reflexivity.
Defined.

Lemma getNotifications_counts_witness :
  ∃ l unread_count,
    getNotifications 7 (Sample.query (Some "2") None) Sample.store
    = ok 200 "Notifications retrieved successfully"
        (NotificationList l unread_count
           (Z.of_nat (size (filter (λ row, n_user_id row.2 = 7)
                                   (notifications Sample.store)))))
    ∧ 0 ≤ unread_count
      ≤ Z.of_nat (size (filter (λ row, n_user_id row.2 = 7)
                               (notifications Sample.store)))
    ∧ (length l
       ≤ size (filter (λ row, n_user_id row.2 = 7%Z)
                      (notifications Sample.store)))%nat.
Proof.
  apply (getNotifications_counts 7 (Sample.query (Some "2") None) Sample.store).
  vm_compute. reflexivity.
Defined.

Example lengths :
  (λ lim, match data (getNotifications 7 (Sample.query lim (Some "true"))
                        Sample.store) with
          | NotificationList l _ _ => Some (length l)
          | _ => None
          end)
  <$> [None; Some "2"; Some "-1"; Some "250"; Some Sample.far_below]%string
  = [Some 3; Some 2; Some 3; Some 3; None]%nat.
Proof. vm_compute. reflexivity. Qed.

Lemma handlers_preserve_wf_witness :
  wf (createBooking Sample.iso_date 7 (Sample.request 1 1 3) Sample.store).2
  ∧ wf (cancelBooking "2025-10-06 10:00:00" 7 5 Sample.store).2
  ∧ wf (markAllRead 7 Sample.store).2
  ∧ wf (markRead 7 5 Sample.store).2.
Proof.
  apply (handlers_preserve_wf Sample.iso_date 7 (Sample.request 1 1 3)
           "2025-10-06 10:00:00" 5 Sample.store).
  apply (bool_decide_unpack (wf Sample.store)). vm_compute. exact I.
Defined.

Lemma createBooking_then_get_witness :
  ∃ row,
    data (createBooking Sample.iso_date 7 (Sample.request 1 1 3) Sample.store).1
    = BookingCreated (Reads.br_id row) (Reads.br_restaurant_name row)
        (Reads.br_table_number row) (Reads.br_date row) (Reads.br_time row)
        (Reads.br_guests row) (Reads.br_status row)
    ∧ Reads.getBooking (λ _, "2025-10-05 09:00:00"%string) (λ _, None) 7
        (Reads.br_id row)
        (createBooking Sample.iso_date 7 (Sample.request 1 1 3) Sample.store).2
      = {| Reads.status := 200; Reads.success := true;
           Reads.message := "Booking details retrieved successfully";
           Reads.data := Some row |}.
Proof.
  apply (createBooking_then_get (λ _, "2025-10-05 09:00:00"%string) (λ _, None)
           Sample.iso_date 7 (Sample.request 1 1 3) Sample.store).
  vm_compute. reflexivity.
Defined.

Lemma loadNotifications_shows_answer_witness :
  ∃ l unread_count total_count,
    getNotifications 7 (Sample.query (Some "10") None) Sample.store
    = ok 200 "Notifications retrieved successfully"
        (NotificationList l unread_count total_count)
    ∧ Bell.loadNotifications
        (Bell.Fulfilled
           (Some (getNotifications 7 (Sample.query (Some "10") None) Sample.store)))
        Sample.panel
      = {| Bell.notifications := l; Bell.unreadCount := unread_count;
           Bell.isLoading := false; Bell.loadingNotificationsRef := false |}.
Proof.
  apply (loadNotifications_shows_answer 7 Sample.store Sample.panel).
  reflexivity.
Defined.

Lemma markAsRead_nothing_to_mark_witness :
  Bell.notifications
    (Bell.markAsRead Sample.panel 12 (Bell.Fulfilled None) Sample.panel)
  = Bell.notifications Sample.panel
  ∧ Bell.unreadCount
      (Bell.markAsRead Sample.panel 12 (Bell.Fulfilled None) Sample.panel)
    = Z.max 0 (Bell.unreadCount Sample.panel - 1).
Proof.
  apply (markAsRead_nothing_to_mark Sample.panel 12 None Sample.panel).
  apply (proj1 (Forall_forall (λ e, e_id e = 12 → e_is_read e = 1)
                  (Bell.notifications Sample.panel))).
  apply (bool_decide_unpack
           (Forall (λ e, e_id e = 12 → e_is_read e = 1)
                   (Bell.notifications Sample.panel))).
  vm_compute. exact I.
Defined.

Example stale_count_after_marking_a_read_one :
  Bell.unreadCount
    (Bell.markAsRead Sample.panel 12 (Bell.Fulfilled None) Sample.panel) = 2
  ∧ e_is_read <$> Bell.notifications
      (Bell.markAsRead Sample.panel 12 (Bell.Fulfilled None) Sample.panel)
    = [0; 0; 0; 1; 1].
Proof. vm_compute. done. Qed.

Example bookings_of_user_7 :
  Reads.br_id <$> default []
    (Reads.data (Reads.listBookings (λ _, "2025-10-05 09:00:00"%string)
                   (λ _, None) 7
                   (createBooking Sample.iso_date 7 (Sample.request 1 1 3)
                      Sample.store).2))
  = [5; 6]
  ∧ Reads.status (Reads.getBooking (λ _, "2025-10-05 09:00:00"%string)
                    (λ _, None) 8 5 Sample.store) = 404.
Proof. vm_compute. done. Qed.

Example ages :
  View.formatDate (Some (-5000)) "10/4/2025" = "Just now"%string
  ∧ View.formatDate (Some 59999) "10/4/2025" = "Just now"%string
  ∧ View.formatDate (Some 60000) "10/4/2025" = "1m ago"%string
  ∧ View.formatDate (Some 3599999) "10/4/2025" = "59m ago"%string
  ∧ View.formatDate (Some 3600000) "10/4/2025" = "1h ago"%string
  ∧ View.formatDate (Some 86400000) "10/4/2025" = "1d ago"%string
  ∧ View.formatDate (Some 604800000) "10/4/2025" = "10/4/2025"%string
  ∧ View.formatDate None "Invalid Date" = "Invalid Date"%string.
Proof. vm_compute. done. Qed.

Example times :
  time_matches "7:05" = true ∧ time_matches "23:59" = true
  ∧ time_matches "24:00" = false ∧ time_matches "7:5" = false
  ∧ time_matches "19:00 " = false ∧ time_matches "" = false.
Proof. vm_compute. done. Qed.

End MoreExamples.
